(** * The multilingual intent-response chatbot of [Project.py]

    A shallow embedding of the module [Project.py]: the heuristic language
    detector [_ld_detect], the wrapper [detect], and the class
    [MultilingualChatbot] with its methods [__init__], [_rule_based_intent],
    [_parse_label_to_intent], [translate_text] and [chat].

    Python strings are sequences of Unicode code points; they are modelled as
    lists of [N].  The three optional third-party packages ([langdetect],
    [transformers], [deep_translator]) are oracles over an opaque external
    world.  Methods run in a small state-and-exception monad whose state holds
    the chatbot object, the text written to standard output and the external
    world.  Exceptions are the subclasses of [Exception], which is what the
    handlers of the module catch, and [print] does not fail. *)

From Stdlib Require Import NArith ZArith String Ascii DecimalString DecimalPos DecimalN Lia.
From stdpp Require Import base option list gmap.

Set Warnings "-register-all".

(** ** Python strings *)

Abbreviation codepoint := N (only parsing).
Abbreviation pystr := (list N) (only parsing).

Module PyStr.
Local Open Scope N_scope.

(** Source literals are written as UTF-8 text and decoded to code points. *)
Fixpoint utf8_decode (bs : list N) : pystr :=
  match bs with
  | [] => []
  | b0 :: r0 =>
    if b0 <? 0x80 then b0 :: utf8_decode r0
    else if b0 <? 0xE0 then
      match r0 with
      | b1 :: r1 => ((b0 - 0xC0) * 64 + (b1 - 0x80)) :: utf8_decode r1
      | _ => []
      end
    else if b0 <? 0xF0 then
      match r0 with
      | b1 :: b2 :: r2 =>
        ((b0 - 0xE0) * 4096 + (b1 - 0x80) * 64 + (b2 - 0x80)) :: utf8_decode r2
      | _ => []
      end
    else
      match r0 with
      | b1 :: b2 :: b3 :: r3 =>
        ((b0 - 0xF0) * 262144 + (b1 - 0x80) * 4096 + (b2 - 0x80) * 64 + (b3 - 0x80))
          :: utf8_decode r3
      | _ => []
      end
  end.

Definition lit (s : string) : pystr :=
  utf8_decode (N_of_ascii <$> list_ascii_of_string s).
#[global] Arguments lit : simpl never.

(** [str.isspace] on one code point (CPython's [_PyUnicode_IsWhitespace]). *)
Definition isspace (c : codepoint) : bool :=
  (9 <=? c) && (c <=? 13) || (28 <=? c) && (c <=? 32)
  || (c =? 0x85) || (c =? 0xA0) || (c =? 0x1680)
  || (0x2000 <=? c) && (c <=? 0x200A)
  || (c =? 0x2028) || (c =? 0x2029) || (c =? 0x202F) || (c =? 0x205F)
  || (c =? 0x3000).

Fixpoint lstrip (s : pystr) : pystr :=
  match s with
  | [] => []
  | c :: r => if isspace c then lstrip r else s
  end.

Definition rstrip (s : pystr) : pystr := reverse (lstrip (reverse s)).

(** [s.strip()] *)
Definition strip (s : pystr) : pystr := rstrip (lstrip s).

(** [s.startswith(p)] *)
Fixpoint startswith (p s : pystr) : bool :=
  match p, s with
  | [], _ => true
  | _ :: _, [] => false
  | a :: p', b :: s' => (a =? b) && startswith p' s'
  end.

(** [sub in s] for strings *)
Fixpoint contains (sub s : pystr) : bool :=
  startswith sub s ||
  match s with
  | [] => false
  | _ :: r => contains sub r
  end.

(** [a == b] for strings *)
Definition str_eqb (a b : pystr) : bool := bool_decide (a = b).

(** [s in (t1, ..., tn)] for a tuple of strings *)
Definition in_tuple (s : pystr) (ts : list pystr) : bool :=
  existsb (str_eqb s) ts.

(** [re.search("[...]", s)] for a character class given by its members:
    some code point of [s] is one of them. *)
Definition re_search_class (cls s : pystr) : bool :=
  existsb (fun c => existsb (N.eqb c) cls) s.

(** Truth value of a string: empty is false. *)
Definition truthy (s : pystr) : bool :=
  match s with [] => false | _ => true end.

(** The lower-case mapping on the Basic Latin and Latin-1 blocks: A-Z and
    U+00C0-U+00DE except the multiplication sign move up by 32. *)
Definition latin1_lower (c : codepoint) : codepoint :=
  if (65 <=? c) && (c <=? 90) then c + 32
  else if (0xC0 <=? c) && (c <=? 0xDE) && negb (c =? 0xD7) then c + 32
  else c.

(** Text of the Basic Latin and Latin-1 blocks *)
Definition is_latin1 (s : pystr) : bool := forallb (fun c => c <? 256) s.

(** The decimal digits of the Basic Latin and Latin-1 blocks are 0-9. *)
Definition latin1_decimal (c : codepoint) : option N :=
  if (48 <=? c) && (c <=? 57) then Some (c - 48) else None.

End PyStr.
Export PyStr.

(** ** Python values *)

Inductive pyval :=
| PNone
| PBool (b : bool)
| PInt (z : Z)
| PStr (s : pystr)
| PList (l : list pyval)
| PDict (d : gmap pystr pyval).

(** [isinstance(v, str)] *)
Definition isinstance_str (v : pyval) : bool :=
  match v with PStr _ => true | _ => false end.

(** ** The interpreter's Unicode tables

    [str.lower], the decimal-digit property used by [\d] and [int], and the
    text of a value that is not a string are tables of the Python runtime.
    They are parameters; on the Latin-1 range their values are fixed. *)
Class PyRuntime := {
  lower : pystr -> pystr;
  lower_latin1 :
    forall s : pystr, Forall (fun c => (c < 256)%N) s -> lower s = latin1_lower <$> s;
  decimal : codepoint -> option N;
  decimal_latin1 :
    forall c : codepoint, (c < 256)%N -> decimal c = latin1_decimal c;
  repr : pyval -> pystr
}.

(** [str(v)] *)
Definition str `{PyRuntime} (v : pyval) : pystr :=
  match v with
  | PStr s => s
  | _ => repr v
  end.

(** A [for] loop whose body may [return]: the first iteration that returns
    ends the loop. *)
Fixpoint for_return {A R : Type} (xs : list A) (body : A -> option R) : option R :=
  match xs with
  | [] => None
  | x :: rest =>
    match body x with
    | Some r => Some r
    | None => for_return rest body
    end
  end.

(** ** Language detection (the heuristic defined when [langdetect] is absent) *)

Section Heuristic.
Context `{PyRuntime}.

Definition spanish_markers : list pystr :=
  [lit "pedido"; lit "orden"; lit "envio"; lit "envío"; lit "dónde";
   lit "donde"; lit "hola"; lit "gracias"; lit "por favor"].

Definition french_markers : list pystr :=
  [lit "bonjour"; lit "commande"; lit "où"; lit "ou"; lit "merci"; lit "salut"].

Definition _ld_detect (text : pyval) : pystr :=
  match text with
  | PStr s =>
    if negb (truthy (strip s)) then lit "en"
    else
      let txt := lower (strip s) in
      if contains (lit "¿") txt || contains (lit "¡") txt then lit "es"
      else if re_search_class (lit "ñáéíóú") txt then lit "es"
      else if re_search_class (lit "àâçèéêëîïôûùü") txt then lit "fr"
      else
        match for_return spanish_markers
                (fun w => if contains w txt then Some (lit "es") else None) with
        | Some r => r
        | None =>
          match for_return french_markers
                  (fun w => if contains w txt then Some (lit "fr") else None) with
          | Some r => r
          | None =>
            if in_tuple txt [lit "hello"; lit "hi"; lit "hey"] then lit "en"
            else lit "en"
          end
        end
  | _ => lit "en"
  end.

End Heuristic.

(** ** Exceptions (subclasses of [Exception]) *)

Inductive exn :=
| ValueError (msg : pystr)
| TypeError (msg : pystr)
| IndexError (msg : pystr)
| KeyError (key : pyval)
| ExternalError (msg : pystr).

(** [str(e)], as interpolated by [f"...{e}"] *)
Definition exn_str `{PyRuntime} (e : exn) : pystr :=
  match e with
  | ValueError msg | TypeError msg | IndexError msg | ExternalError msg => msg
  | KeyError key => repr key
  end.

(** [v[0]] *)
Definition getitem0 (v : pyval) : exn + pyval :=
  match v with
  | PList (x :: _) => inr x
  | PList [] => inl (IndexError (lit "list index out of range"))
  | PStr (c :: _) => inr (PStr [c])
  | PStr [] => inl (IndexError (lit "string index out of range"))
  | PDict _ => inl (KeyError (PInt 0))
  | PNone => inl (TypeError (lit "'NoneType' object is not subscriptable"))
  | PBool _ => inl (TypeError (lit "'bool' object is not subscriptable"))
  | PInt _ => inl (TypeError (lit "'int' object is not subscriptable"))
  end.

(** [a or b] where [a] is [None] or a string *)
Definition py_or (a : option pystr) (b : pystr) : pystr :=
  match a with
  | Some s => if truthy s then s else b
  | None => b
  end.

(** [re.search(r"(\d+)", s)]: group 1 of the leftmost match, the longest run
    of decimal digits that starts at the first digit of [s]. *)
Section Digits.
Context `{PyRuntime}.

Definition isdecimal (c : codepoint) : bool :=
  match decimal c with Some _ => true | None => false end.

Fixpoint span_digits (s : pystr) : pystr :=
  match s with
  | [] => []
  | c :: r => if isdecimal c then c :: span_digits r else []
  end.

Fixpoint re_search_digits (s : pystr) : option pystr :=
  match s with
  | [] => None
  | c :: r => if isdecimal c then Some (c :: span_digits r) else re_search_digits r
  end.

(** [int(s)] on a string of decimal digits.  The interpreter's limit on the
    number of digits it converts is not modelled. *)
Definition int (s : pystr) : Z :=
  fold_left (fun acc c => (acc * 10 + Z.of_N (default 0%N (decimal c)))%Z) s 0%Z.

End Digits.

(** ** The chatbot *)

Section Chatbot.
Context `{PyRuntime}.

(** The state of everything outside the program: model files, the
    translation service, the language-identification library. *)
Context {E : Type}.

(** A call into third-party code: it may change the external world and it
    returns a value or raises. *)
Definition oracle (A : Type) : Type := E -> (exn + A) * E.

(** The object stored in [self.classifier]: calling it runs the model. *)
Definition Pipeline : Type := pystr -> oracle pyval.

(** What the three guarded imports at the top of the module found.  A field
    is [Some] when the import succeeded, so
    [LANGDETECT_AVAILABLE], [TRANSFORMERS_AVAILABLE] and
    [TRANSLATOR_AVAILABLE] are the tests [is_Some] below.  The results have
    the types of the packages' interfaces: the detector returns a language
    code, the translator a text, the model any value. *)
Record Env := {
  (** [langdetect.detect] *)
  langdetect : option (pyval -> oracle pystr);
  (** [AutoTokenizer.from_pretrained], [AutoModelForSequenceClassification
      .from_pretrained] and [pipeline], one after the other *)
  transformers : option (pystr -> oracle Pipeline);
  (** [GoogleTranslator(source='auto', target=dest).translate(text)],
      target first *)
  deep_translator : option (pystr -> pystr -> oracle pystr)
}.

Definition LANGDETECT_AVAILABLE (env : Env) : bool := bool_decide (is_Some (langdetect env)).
Definition TRANSFORMERS_AVAILABLE (env : Env) : bool := bool_decide (is_Some (transformers env)).
Definition TRANSLATOR_AVAILABLE (env : Env) : bool := bool_decide (is_Some (deep_translator env)).

Record MultilingualChatbot := {
  model_name : pystr;
  model_loaded : bool;
  classifier : option Pipeline;
  RESPONSES : gmap pystr (gmap pystr pystr);
  LABEL_MAP : gmap Z pystr;
  _order_keywords : list pystr;
  _greeting_keywords : list pystr
}.

Record World := {
  self : MultilingualChatbot;
  stdout : list pystr;
  ext : E
}.

(** *** The monad of methods *)

Definition M (A : Type) : Type := World -> (exn + A) * World.

#[global] Instance M_ret : MRet M := fun A (a : A) w => (inr a, w).

#[global] Instance M_bind : MBind M := fun A B (k : A -> M B) (m : M A) w =>
  match m w with
  | (inr a, w') => k a w'
  | (inl e, w') => (inl e, w')
  end.

Definition raise {A : Type} (e : exn) : M A := fun w => (inl e, w).

(** [try: m  except Exception as e: h e] *)
Definition try_except {A : Type} (m : M A) (h : exn -> M A) : M A := fun w =>
  match m w with
  | (inl e, w') => h e w'
  | r => r
  end.

Definition get_self : M MultilingualChatbot := fun w => (inr (self w), w).

(** [print(line)] *)
Definition print (line : pystr) : M unit := fun w =>
  (inr (), {| self := self w; stdout := stdout w ++ [line]; ext := ext w |}).

Definition call {A : Type} (f : oracle A) : M A := fun w =>
  let '(r, e') := f (ext w) in
  (r, {| self := self w; stdout := stdout w; ext := e' |}).

Definition lift {A : Type} (r : exn + A) : M A := fun w => (r, w).

(** [post m w Q]: running [m] from [w] ends in an outcome and a world that
    satisfy [Q]. *)
Definition post {A : Type} (m : M A) (w : World) (Q : exn + A -> World -> Prop) : Prop :=
  Q (m w).1 (m w).2.

Variable env : Env.

(** [detect]: the name [_ld_detect] is bound to [langdetect.detect] when the
    import succeeded and to the heuristic otherwise. *)
Definition detect (text : pyval) : M pystr :=
  try_except
    (match langdetect env with
     | Some ld => call (ld text)
     | None => mret (_ld_detect text)
     end)
    (fun _ => mret (lit "en")).

(** *** [__init__] *)

Definition RESPONSES_table : gmap pystr (gmap pystr pystr) :=
  {[ lit "order_status" :=
       {[ lit "en" := lit "Your order is on the way and will arrive tomorrow.";
          lit "es" := lit "Su pedido está en camino y llegará mañana.";
          lit "fr" := lit "Votre commande est en route et arrivera demain." ]};
     lit "greeting" :=
       {[ lit "en" := lit "Hello! How can I assist you today?";
          lit "es" := lit "¡Hola! ¿Cómo puedo ayudarte hoy?";
          lit "fr" := lit "Bonjour! Comment puis-je vous aider aujourd'hui?" ]};
     lit "fallback" :=
       {[ lit "en" := lit "Sorry, I didn't understand that.";
          lit "es" := lit "Lo siento, no entendí eso.";
          lit "fr" := lit "Désolé, je n'ai pas compris cela." ]} ]}.

Definition LABEL_MAP_table : gmap Z pystr :=
  {[ 0%Z := lit "order_status"; 1%Z := lit "greeting"; 2%Z := lit "fallback" ]}.

Definition order_keywords_list : list pystr :=
  [lit "order"; lit "pedido"; lit "orden"; lit "en camino"; lit "where";
   lit "dónde"; lit "donde"; lit "où"; lit "envío"; lit "envio"].

Definition greeting_keywords_list : list pystr :=
  [lit "hello"; lit "hi"; lit "hey"; lit "hola"; lit "bonjour"; lit "buenos";
   lit "buenas"; lit "salut"].

Definition fresh_bot (name : pystr) (loaded : bool) (c : option Pipeline)
  : MultilingualChatbot :=
  {| model_name := name; model_loaded := loaded; classifier := c;
     RESPONSES := RESPONSES_table; LABEL_MAP := LABEL_MAP_table;
     _order_keywords := order_keywords_list;
     _greeting_keywords := greeting_keywords_list |}.

(** The constructor, run with standard output [out] and external world [e].
    The default value of [name] is [bert-base-multilingual-cased]. *)
Definition __init__ (name : pystr) (out : list pystr) (e : E) : World :=
  match transformers env with
  | Some load =>
    match load name e with
    | (inr pipe, e') =>
      {| self := fresh_bot name true (Some pipe);
         stdout := out ++ [lit "Transformer model '" ++ name
                           ++ lit "' loaded. Using transformer-based classifier."];
         ext := e' |}
    | (inl err, e') =>
      {| self := fresh_bot name false None;
         stdout := out ++ [lit "Warning: could not load transformer model '" ++ name
                           ++ lit "': " ++ exn_str err;
                           lit "Falling back to rule-based classifier."];
         ext := e' |}
    end
  | None => {| self := fresh_bot name false None; stdout := out; ext := e |}
  end.

(** *** Intent classification *)

Definition _rule_based_intent (this : MultilingualChatbot) (text : pystr) : pystr :=
  let txt := lower text in
  match for_return (_greeting_keywords this)
          (fun g => if contains g txt then Some (lit "greeting") else None) with
  | Some r => r
  | None =>
    match for_return (_order_keywords this)
            (fun o => if contains o txt then Some (lit "order_status") else None) with
    | Some r => r
    | None => lit "fallback"
    end
  end.

Definition _parse_label_to_intent (this : MultilingualChatbot) (label : pyval) : pystr :=
  match label with
  | PNone => lit "fallback"
  | _ =>
    match re_search_digits (str label) with
    | Some group1 =>
      let idx := int group1 in
      default (lit "fallback") (LABEL_MAP this !! idx)
    | None =>
      let label_lower := lower (str label) in
      if contains (lit "greet") label_lower || contains (lit "hello") label_lower
         || contains (lit "hi") label_lower
      then lit "greeting"
      else lit "fallback"
    end
  end.

(** *** Translation *)

Definition translate_text (text : pystr) (dest_lang : option pystr) : M pystr :=
  let dest := lower (default (lit "") dest_lang) in
  if startswith (lit "en") dest then mret text
  else
    returned ←
      match deep_translator env with
      | Some translate =>
        try_except
          (translated ← call (translate dest text);
           mret (Some translated))
          (fun e =>
             print (lit "Warning: translator failed: " ++ exn_str e
                    ++ lit ". Falling back to built-in translations.");;
             mret None)
      | None => mret None
      end;
    match returned with
    | Some translated => mret translated
    | None =>
      this ← get_self;
      let fallback := default ∅ (RESPONSES this !! lit "fallback") in
      if startswith (lit "es") dest then mret (py_or (fallback !! lit "es") text)
      else if startswith (lit "fr") dest then mret (py_or (fallback !! lit "fr") text)
      else mret text
    end.

(** *** [chat] *)

(** [d[k]] on the response table *)
Definition getitem (d : gmap pystr (gmap pystr pystr)) (k : pystr)
  : M (gmap pystr pystr) :=
  match d !! k with
  | Some v => mret v
  | None => raise (KeyError (PStr k))
  end.

Definition chat (message : pyval) : M (gmap pystr pyval) :=
  match message with
  | PStr msg =>
    detected_lang ← try_except (detect message) (fun _ => mret (lit "en"));
    this ← get_self;
    intent ←
      match model_loaded this, classifier this with
      | true, Some run =>
        try_except
          (out ← call (run msg);
           pred ← lift (getitem0 out);
           let label :=
             match pred with
             | PDict d => default PNone (d !! lit "label")
             | _ => PNone
             end in
           mret (_parse_label_to_intent this label))
          (fun e =>
             print (lit "Warning: transformer classifier failed at runtime: "
                    ++ exn_str e);;
             mret (_rule_based_intent this msg))
      | _, _ => mret (_rule_based_intent this msg)
      end;
    fallback_dict ← getitem (RESPONSES this) (lit "fallback");
    let response_dict := default fallback_dict (RESPONSES this !! intent) in
    reply ←
      match response_dict !! detected_lang with
      | Some r => mret r
      | None => translate_text (default (lit "") (response_dict !! lit "en")) (Some detected_lang)
      end;
    mret ({[ lit "detected_language" := PStr detected_lang;
             lit "intent" := PStr intent;
             lit "response" := PStr reply ]} : gmap pystr pyval)
  | _ => raise (ValueError (lit "message must be a string"))
  end.

(** A session: the constructor, then any sequence of calls to [chat], whose
    results and exceptions the caller takes. *)
Definition session (name : pystr) (out : list pystr) (e : E) (history : list pyval)
  : World :=
  fold_left (fun w message => snd (chat message w)) history (__init__ name out e).

End Chatbot.

(** ** Reference definitions, written from the specification *)

Section Reference.
Context `{PyRuntime}.

(** The heuristic strategy of the language detector: ordered checks against
    the lower-cased, trimmed input. *)
Definition heuristic_reference (text : pyval) : pystr :=
  match text with
  | PStr [] => lit "en"
  | PStr s =>
    let t := lower (strip s) in
    (* 1 *)
    if contains (lit "¿") t || contains (lit "¡") t then lit "es"
    (* 2 *)
    else if existsb (fun c => contains [c] t) (lit "ñáéíóú") then lit "es"
    (* 3 *)
    else if existsb (fun c => contains [c] t) (lit "àâçèéêëîïôûùü") then lit "fr"
    else
      (* 4 *)
      match find (fun marker => contains marker t)
              [lit "pedido"; lit "orden"; lit "envio"; lit "envío"; lit "dónde";
               lit "donde"; lit "hola"; lit "gracias"; lit "por favor"] with
      | Some _ => lit "es"
      | None =>
        (* 5 *)
        match find (fun marker => contains marker t)
                [lit "bonjour"; lit "commande"; lit "où"; lit "ou"; lit "merci";
                 lit "salut"] with
        | Some _ => lit "fr"
        | None =>
          (* 6 *)
          if bool_decide (t ∈ [lit "hello"; lit "hi"; lit "hey"]) then lit "en"
          (* 7 *)
          else lit "en"
        end
      end
  | _ => lit "en"
  end.

(** The rule-based strategy of the intent classifier. *)
Definition greeting_keywords_reference : list pystr :=
  [lit "hello"; lit "hi"; lit "hey"; lit "hola"; lit "bonjour"; lit "buenos";
   lit "buenas"; lit "salut"].

Definition order_keywords_reference : list pystr :=
  [lit "order"; lit "pedido"; lit "orden"; lit "en camino"; lit "where";
   lit "dónde"; lit "donde"; lit "où"; lit "envío"; lit "envio"].

Definition rule_based_reference (text : pystr) : pystr :=
  let t := lower text in
  match find (fun keyword => contains keyword t) greeting_keywords_reference with
  | Some _ => lit "greeting"
  | None =>
    match find (fun keyword => contains keyword t) order_keywords_reference with
    | Some _ => lit "order_status"
    | None => lit "fallback"
    end
  end.

(** A text mentions a keyword list when, lower-cased, it contains one of
    the keywords. *)
Definition mentions (keywords : list pystr) (text : pystr) : bool :=
  existsb (fun keyword => contains keyword (lower text)) keywords.

(** The built-in translation rule, over a response table. *)
Definition builtin_translation_reference
    (table : gmap pystr (gmap pystr pystr)) (text dest_lang : pystr) : pystr :=
  let target := lower dest_lang in
  if startswith (lit "en") target then text
  else if startswith (lit "es") target then
    default text (table !! lit "fallback" ≫= (.!! lit "es"))
  else if startswith (lit "fr") target then
    default text (table !! lit "fallback" ≫= (.!! lit "fr"))
  else text.

(** The closed enumeration of intents. *)
Definition Intent : list pystr := [lit "order_status"; lit "greeting"; lit "fallback"].

(** The language codes of the heuristic detector. *)
Definition heuristic_codes : list pystr := [lit "en"; lit "es"; lit "fr"].

(** The record that [chat] returns. *)
Definition ChatResult (detected_language intent response : pystr) : gmap pystr pyval :=
  {[ lit "detected_language" := PStr detected_language;
     lit "intent" := PStr intent;
     lit "response" := PStr response ]}.

End Reference.

(** ** A runtime and an environment to run the model on

    [latin1_runtime] lower-cases and reads digits on the Latin-1 range and
    leaves every other code point alone; its [repr] writes [None], the
    booleans and the integers as Python does and is a placeholder on lists
    and dictionaries.  [bare_env] is a machine on which none of the three
    optional packages is installed. *)

Definition latin1_runtime : PyRuntime :=
  {| lower := fmap latin1_lower;
     lower_latin1 := fun _ _ => eq_refl;
     decimal := latin1_decimal;
     decimal_latin1 := fun _ _ => eq_refl;
     repr := fun v =>
       match v with
       | PInt z => lit (NilZero.string_of_int (Z.to_int z))
       | PNone => lit "None"
       | PBool true => lit "True"
       | PBool false => lit "False"
       | _ => lit "<container>"
       end |}.

Definition bare_env : Env (E := unit) :=
  {| langdetect := None; transformers := None; deep_translator := None |}.

(** The default model name, and two earlier requests of a session: a
    greeting, and a call that was refused. *)
Definition default_model_name : pystr := lit "bert-base-multilingual-cased".

Definition earlier_requests : list pyval := [PStr (lit "Hello"); PInt 7].

(** ** The two blocks of [chat], and the detector without its dead tests *)

Section Blocks.
Context `{PyRuntime} {E : Type}.
Variable env : Env (E := E).

(** The block of [chat] that sets [intent] (from [intent = "fallback"] to the
    end of the [if]). *)
Definition classify_block (this : MultilingualChatbot (E := E)) (msg : pystr) : M pystr :=
  match model_loaded this, classifier this with
  | true, Some run =>
    try_except
      (out ← call (run msg);
       pred ← lift (getitem0 out);
       let label :=
         match pred with
         | PDict d => default PNone (d !! lit "label")
         | _ => PNone
         end in
       mret (_parse_label_to_intent this label))
      (fun e =>
         print (lit "Warning: transformer classifier failed at runtime: "
                ++ exn_str e);;
         mret (_rule_based_intent this msg))
  | _, _ => mret (_rule_based_intent this msg)
  end.

(** The block of [chat] that finds the reply and builds the result (from
    [response_dict = ...] to [return]). *)
Definition respond_block (this : MultilingualChatbot (E := E))
    (intent detected_lang : pystr) : M (gmap pystr pyval) :=
  fallback_dict ← getitem (RESPONSES this) (lit "fallback");
  let response_dict := default fallback_dict (RESPONSES this !! intent) in
  reply ←
    match response_dict !! detected_lang with
    | Some r => mret r
    | None => translate_text env (default (lit "") (response_dict !! lit "en"))
                (Some detected_lang)
    end;
  mret ({[ lit "detected_language" := PStr detected_lang;
           lit "intent" := PStr intent;
           lit "response" := PStr reply ]} : gmap pystr pyval).

End Blocks.

(** The heuristic detector with the tests that can never decide left out:
    no test for emptiness, one character class for Spanish, no [é] in the
    French class, no marker with an accent, no [bonjour], no last
    comparison with the greetings. *)
Definition reduced_detector `{PyRuntime} (text : pyval) : pystr :=
  match text with
  | PStr s =>
    let txt := lower (strip s) in
    if re_search_class (lit "¿¡ñáéíóú") txt then lit "es"
    else if re_search_class (lit "àâçèêëîïôûùü") txt then lit "fr"
    else if existsb (fun w => contains w txt)
              [lit "pedido"; lit "orden"; lit "envio"; lit "donde"; lit "hola";
               lit "gracias"; lit "por favor"] then lit "es"
    else if existsb (fun w => contains w txt)
              [lit "commande"; lit "ou"; lit "merci"; lit "salut"] then lit "fr"
    else lit "en"
  | _ => lit "en"
  end.

(** The nine canned texts. *)
Definition canned_texts : list pystr :=
  [lit "Your order is on the way and will arrive tomorrow.";
   lit "Su pedido está en camino y llegará mañana.";
   lit "Votre commande est en route et arrivera demain.";
   lit "Hello! How can I assist you today?";
   lit "¡Hola! ¿Cómo puedo ayudarte hoy?";
   lit "Bonjour! Comment puis-je vous aider aujourd'hui?";
   lit "Sorry, I didn't understand that.";
   lit "Lo siento, no entendí eso.";
   lit "Désolé, je n'ai pas compris cela."].

(** ** Numbers written in decimal *)



(** Text without the digits 0-9 *)
Definition digit_free (s : pystr) : bool :=
  forallb (fun c => negb ((48 <=? c)%N && (c <=? 57)%N)) s.


(** ** The script under [if __name__ == "__main__"] *)

(** How the script can end early: an exception of [chat] that nothing
    catches, or an [assert] that fails. *)
Inductive script_exn :=
| Uncaught (e : exn)
| AssertionError (msg : pystr).

Definition original_tests : list (gmap pystr pyval) :=
  [ {[ lit "message" := PStr (lit "Hello") ]};
    {[ lit "message" := PStr (lit "¿Dónde está mi pedido?") ]};
    {[ lit "message" := PStr (lit "Bonjour") ]} ].

Definition additional_tests : list (gmap pystr pyval) :=
  [ {[ lit "message" := PStr (lit "Where is my order?") ]};
    {[ lit "message" := PStr (lit "Hi there!") ]};
    {[ lit "message" := PStr (lit "¿Hola, cómo estás?") ]};
    {[ lit "message" := PStr (lit "I want to check my order status") ]};
    {[ lit "message" := PStr (lit "Gracias por tu ayuda") ]};
    {[ lit "message" := PStr (lit "Merci beaucoup") ]};
    {[ lit "message" := PStr (lit "Ciao") ]} ].

Definition all_tests : list (gmap pystr pyval) := original_tests ++ additional_tests.


Section Script.
Context `{PyRuntime} {E : Type}.
Variable env : Env (E := E).

(** [t["message"]] *)
Definition getitem_message (t : gmap pystr pyval) : M (E := E) pyval :=
  match t !! lit "message" with
  | Some v => mret v
  | None => raise (KeyError (PStr (lit "message")))
  end.

(** The first loop: call [chat] and print the input and the result. *)
Fixpoint print_loop (tests : list (gmap pystr pyval)) : M (E := E) unit :=
  match tests with
  | [] => mret ()
  | t :: rest =>
    inp ← getitem_message t;
    out ← chat env inp;
    print (lit "Input: " ++ str inp ++ [10%N] ++ lit " -> " ++ str (PDict out)
           ++ [10%N]);;
    print_loop rest
  end.

(** The second loop: call [chat] again and assert the shape of the result.
    The first assertion, [isinstance(out, dict)], holds of every value of the
    type of [out]. *)
Fixpoint assert_loop (tests : list (gmap pystr pyval)) (w : World (E := E))
  : (script_exn + unit) * World (E := E) :=
  match tests with
  | [] => (inr (), w)
  | t :: rest =>
    match (inp ← getitem_message t; chat env inp) w with
    | (inl e, w') => (inl (Uncaught e), w')
    | (inr out, w') =>
      if bool_decide (is_Some (out !! lit "detected_language"))
         && bool_decide (is_Some (out !! lit "intent"))
         && bool_decide (is_Some (out !! lit "response"))
      then assert_loop rest w'
      else (inl (AssertionError (lit "Missing keys in response")), w')
    end
  end.

Definition passed_line : pystr := lit "All local tests passed (basic checks)." ++ [10%N].

Definition notes_line : pystr :=
  lit "Notes: " ++ [10%N]
  ++ lit " - If you'd like stricter language detection, install the 'langdetect' package in your environment."
  ++ [10%N]
  ++ lit " - If you'd like transformer-only behavior, tell me and I'll prefer the transformer when it's available.".

(** The script, run with standard output [out] and external world [e]. *)
Definition main (out : list pystr) (e : E) : (script_exn + unit) * World (E := E) :=
  let bot := __init__ env (lit "bert-base-multilingual-cased") out e in
  match (print (lit "Running local tests (no FastAPI/uvicorn required)." ++ [10%N]);;
         print_loop all_tests) bot with
  | (inl err, w1) => (inl (Uncaught err), w1)
  | (inr _, w1) =>
    match assert_loop all_tests w1 with
    | (inl err, w2) => (inl err, w2)
    | (inr _, w2) => (inr (), ((print passed_line;; print notes_line) w2).2)
    end
  end.

End Script.

(** ** Machines with the optional packages

    On [failing_env] the three packages are installed and each of their
    calls raises, except that the model loads.  On [german_env] the language
    library answers [de], the model answers the label [LABEL_1] and there is
    no translation service. *)

Definition raising_pipeline : Pipeline (E := unit) :=
  fun _ e => (inl (ExternalError (lit "CUDA out of memory")), e).

Definition raising_translator : pystr -> pystr -> oracle (E := unit) pystr :=
  fun _ _ e => (inl (ExternalError (lit "Request exception")), e).

Definition raising_detector : pyval -> oracle (E := unit) pystr :=
  fun _ e => (inl (ExternalError (lit "No features in text.")), e).

Definition failing_env : Env (E := unit) :=
  {| langdetect := Some raising_detector;
     transformers := Some (fun _ e => (inr raising_pipeline, e));
     deep_translator := Some raising_translator |}.

Definition label_1_answer : pyval :=
  PList [PDict {[ lit "label" := PStr (lit "LABEL_1") ]}].

Definition label_1_pipeline : Pipeline (E := unit) :=
  fun _ e => (inr label_1_answer, e).

Definition german_detector : pyval -> oracle (E := unit) pystr :=
  fun _ e => (inr (lit "de"), e).

Definition german_env : Env (E := unit) :=
  {| langdetect := Some german_detector;
     transformers := Some (fun _ e => (inr label_1_pipeline, e));
     deep_translator := None |}.

(** * Properties *)

(** ** Strings *)

Section StringFacts.
Context `{PyRuntime}.

Lemma lower_empty : lower [] = [].
Proof. rewrite lower_latin1; [reflexivity | constructor]. Qed.

Lemma lower_latin1_text (s : pystr) :
  is_latin1 s = true -> lower s = latin1_lower <$> s.
Proof.
  intros Hs. apply lower_latin1, Forall_forall. intros c Hc.
  unfold is_latin1 in Hs. rewrite forallb_forall in Hs.
  apply N.ltb_lt, Hs. by apply list_elem_of_In.
Qed.

Lemma truthy_false (s : pystr) : truthy s = false -> s = [].
Proof. destruct s; [reflexivity | discriminate]. Qed.

(** A [for] loop that returns a constant is a test for some element. *)
Lemma for_return_const {A R : Type} (xs : list A) (test : A -> bool) (r : R) :
  for_return xs (fun x => if test x then Some r else None)
  = if existsb test xs then Some r else None.
Proof.
  induction xs as [|x xs IH]; simpl; [reflexivity|].
  destruct (test x); simpl; [reflexivity | exact IH].
Qed.

(** Searching a character class in [s] is asking, for each member of the
    class, whether it occurs in [s]. *)
Lemma contains_singleton (c : codepoint) (s : pystr) :
  contains [c] s = existsb (N.eqb c) s.
Proof.
  induction s as [|d s IH]; simpl; [reflexivity|].
  rewrite IH. by destruct (c =? d)%N.
Qed.

Lemma re_search_class_members (cls s : pystr) :
  re_search_class cls s = existsb (fun c => contains [c] s) cls.
Proof.
  unfold re_search_class.
  apply eq_true_iff_eq. rewrite !existsb_exists. split.
  - intros (c & Hc & Hcls). apply existsb_exists in Hcls as (d & Hd & Heq).
    apply N.eqb_eq in Heq. subst d. exists c. split; [done|].
    rewrite contains_singleton. apply existsb_exists. exists c.
    split; [done | apply N.eqb_refl].
  - intros (c & Hc & Hs). rewrite contains_singleton in Hs.
    apply existsb_exists in Hs as (d & Hd & Heq).
    apply N.eqb_eq in Heq. subst d. exists c. split; [done|].
    apply existsb_exists. exists c. split; [done | apply N.eqb_refl].
Qed.

End StringFacts.

(** ** Reasoning about methods *)

Section Rules.
Context `{PyRuntime} {E : Type}.

#[local] Abbreviation M := (M (E:=E)).
#[local] Abbreviation World := (World (E:=E)).

Lemma post_ret {A} (a : A) w (Q : exn + A -> World -> Prop) :
  Q (inr a) w -> post (mret a) w Q.
Proof. done. Qed.

Lemma post_raise {A} (e : exn) w (Q : exn + A -> World -> Prop) :
  Q (inl e) w -> post (raise e) w Q.
Proof. done. Qed.

Lemma post_lift {A} (r : exn + A) w (Q : exn + A -> World -> Prop) :
  Q r w -> post (lift r) w Q.
Proof. done. Qed.

Lemma post_get_self w (Q : exn + MultilingualChatbot -> World -> Prop) :
  Q (inr (self w)) w -> post get_self w Q.
Proof. done. Qed.

Lemma post_print line w (Q : exn + unit -> World -> Prop) :
  Q (inr ()) {| self := self w; stdout := stdout w ++ [line]; ext := ext w |} ->
  post (print line) w Q.
Proof. done. Qed.

Lemma post_call {A} (f : oracle A) w (Q : exn + A -> World -> Prop) :
  (forall r e', Q r {| self := self w; stdout := stdout w; ext := e' |}) ->
  post (call f) w Q.
Proof. intros HQ. unfold post, call. destruct (f (ext w)) as [r e']. apply HQ. Qed.

Lemma post_bind {A B} (m : M A) (k : A -> M B) w (Q : exn + B -> World -> Prop) :
  post m w (fun r w' =>
    match r with
    | inr a => post (k a) w' Q
    | inl e => Q (inl e) w'
    end) ->
  post (m ≫= k) w Q.
Proof.
  unfold post, mbind, M_bind. destruct (m w) as [[e|a] w']; simpl; done.
Qed.

Lemma post_try {A} (m : M A) (h : exn -> M A) w (Q : exn + A -> World -> Prop) :
  post m w (fun r w' =>
    match r with
    | inl e => post (h e) w' Q
    | inr a => Q (inr a) w'
    end) ->
  post (try_except m h) w Q.
Proof.
  unfold post, try_except. destruct (m w) as [[e|a] w']; simpl; done.
Qed.

Lemma post_mono {A} (m : M A) w (Q Q' : exn + A -> World -> Prop) :
  post m w Q -> (forall r w', Q r w' -> Q' r w') -> post m w Q'.
Proof. unfold post. auto. Qed.

End Rules.

Ltac post_step :=
  cbv beta iota zeta;
  lazymatch goal with
  | |- post (mret _) _ _ => apply post_ret
  | |- post (raise _) _ _ => apply post_raise
  | |- post (lift _) _ _ => apply post_lift
  | |- post get_self _ _ => apply post_get_self
  | |- post (print _) _ _ => apply post_print
  | |- post (call _) _ _ => apply post_call; intros ? ?
  | |- post (try_except _ _) _ _ => apply post_try
  | |- post (_ ≫= _) _ _ => apply post_bind
  end.

(** ** The methods keep the chatbot object and end as expected *)

Section MethodFacts.
Context `{PyRuntime} {E : Type}.
Variable env : Env (E := E).

#[local] Abbreviation World := (World (E:=E)).

Lemma detect_post (text : pyval) (w : World) :
  post (detect env text) w (fun r w' =>
    self w' = self w /\
    exists lang, r = inr lang /\
      (langdetect env = None -> lang = _ld_detect text /\ w' = w)).
Proof.
  unfold detect. post_step. destruct (langdetect env) as [ld|].
  - post_step. destruct r as [e|lang]; [post_step|]; simpl;
      (split; [done|]); eexists; (split; [done|]); discriminate.
  - post_step. split; [done|]. by exists (_ld_detect text).
Qed.

Lemma translate_text_post (text : pystr) (dest_lang : option pystr) (w : World) :
  post (translate_text env text dest_lang) w (fun r w' =>
    self w' = self w /\ exists t, r = inr t).
Proof.
  unfold translate_text.
  destruct (startswith (lit "en") _); [post_step; eauto|].
  post_step.
  assert (forall w1 : World, self w1 = self w ->
    post (this ← get_self;
          let fallback := default ∅ (RESPONSES this !! lit "fallback") in
          if startswith (lit "es") (lower (default (lit "") dest_lang))
          then mret (py_or (fallback !! lit "es") text)
          else if startswith (lit "fr") (lower (default (lit "") dest_lang))
          then mret (py_or (fallback !! lit "fr") text)
          else mret text) w1
      (fun r w' => self w' = self w /\ exists t, r = inr t)) as Hrest.
  { intros w1 Hw1. post_step. post_step.
    repeat (case_match; [post_step; eauto|]). post_step; eauto. }
  destruct (deep_translator env) as [translate|].
  - post_step. post_step. post_step. destruct r as [e|translated].
    + post_step. post_step. post_step. by apply Hrest.
    + post_step. post_step. simpl. eauto.
  - post_step. by apply Hrest.
Qed.

(** Without a translation service the method is the built-in rule and has
    no effect, provided no canned fallback text is empty. *)
Lemma translate_text_builtin (text dest_lang : pystr) (w : World) :
  deep_translator env = None ->
  (forall lang s, default ∅ (RESPONSES (self w) !! lit "fallback") !! lang = Some s ->
                  s <> []) ->
  translate_text env text (Some dest_lang) w
  = (inr (builtin_translation_reference (RESPONSES (self w)) text dest_lang), w).
Proof.
  intros Hnone Hfull.
  unfold translate_text, builtin_translation_reference. rewrite Hnone.
  cbv zeta. change (default (lit "") (Some dest_lang)) with dest_lang.
  destruct (startswith (lit "en") (lower dest_lang)); [reflexivity|].
  assert (forall lang,
    py_or (default ∅ (RESPONSES (self w) !! lit "fallback") !! lang) text
    = default text (RESPONSES (self w) !! lit "fallback" ≫= (.!! lang))) as Hor.
  { intros lang. specialize (Hfull lang).
    destruct (RESPONSES (self w) !! lit "fallback") as [d|]; simpl in *.
    - destruct (d !! lang) as [s|]; simpl; [|reflexivity].
      destruct s; [by destruct (Hfull [])|reflexivity].
    - by rewrite lookup_empty. }
  unfold mbind, M_bind, mret, M_ret, get_self. cbv beta iota zeta.
  rewrite !Hor.
  by repeat case_match.
Qed.

Lemma chat_keeps_self (message : pyval) (w : World) :
  self (chat env message w).2 = self w.
Proof.
  change (post (chat env message) w (fun _ w' => self w' = self w)).
  destruct message as [| | |msg| |]; try (by unfold chat; post_step).
  unfold chat. post_step. post_step.
  eapply post_mono; [apply detect_post|]. intros r w1 (Hw1 & lang & -> & _).
  post_step. post_step.
  assert (forall (intent : pystr) (w2 : World), self w2 = self w ->
    post (fallback_dict ← getitem (RESPONSES (self w1)) (lit "fallback");
          let response_dict := default fallback_dict (RESPONSES (self w1) !! intent) in
          reply ←
            match response_dict !! lang with
            | Some r => mret r
            | None => translate_text env (default (lit "") (response_dict !! lit "en"))
                        (Some lang)
            end;
          mret ({[ lit "detected_language" := PStr lang;
                   lit "intent" := PStr intent;
                   lit "response" := PStr reply ]} : gmap pystr pyval)) w2
      (fun _ w' => self w' = self w)) as Hrest.
  { intros intent w2 Hw2. post_step. unfold getitem.
    destruct (RESPONSES (self w1) !! lit "fallback") as [fb|]; [|by post_step].
    post_step. simpl. post_step.
    destruct (default fb (RESPONSES (self w1) !! intent) !! lang).
    - post_step. by post_step.
    - eapply post_mono; [apply translate_text_post|].
      intros r w3 (Hw3 & t & ->). post_step. congruence. }
  post_step.
  destruct (model_loaded (self w1)), (classifier (self w1)) as [run|];
    try (post_step; by apply Hrest).
  post_step. post_step. post_step. destruct r as [e|out].
  - post_step. post_step. post_step. by apply Hrest.
  - post_step. post_step. destruct (getitem0 out) as [e|pred].
    + post_step. post_step. post_step. by apply Hrest.
    + post_step. by apply Hrest.
Qed.

(** What [chat] returns on a string, in a world whose response table has
    the fallback family. *)
Lemma chat_text_post (msg : pystr) (w : World) (fb : gmap pystr pystr) :
  RESPONSES (self w) !! lit "fallback" = Some fb ->
  post (chat env (PStr msg)) w (fun r _ =>
    exists lang intent reply,
      r = inr (ChatResult lang intent reply) /\
      (langdetect env = None -> lang = _ld_detect (PStr msg)) /\
      (intent = _rule_based_intent (self w) msg \/
       exists label, intent = _parse_label_to_intent (self w) label) /\
      (model_loaded (self w) = false -> intent = _rule_based_intent (self w) msg) /\
      (forall canned,
         default fb (RESPONSES (self w) !! intent) !! lang = Some canned ->
         reply = canned)).
Proof.
  intros Hfb.
  unfold chat. post_step. post_step.
  eapply post_mono; [apply detect_post|]. intros r w1 (Hw1 & lang & -> & Hlang).
  post_step. post_step. rewrite Hw1.
  assert (forall (intent : pystr) (w2 : World),
    (intent = _rule_based_intent (self w) msg \/
     exists label, intent = _parse_label_to_intent (self w) label) ->
    (model_loaded (self w) = false -> intent = _rule_based_intent (self w) msg) ->
    post (fallback_dict ← getitem (RESPONSES (self w)) (lit "fallback");
          let response_dict := default fallback_dict (RESPONSES (self w) !! intent) in
          reply ←
            match response_dict !! lang with
            | Some r => mret r
            | None => translate_text env (default (lit "") (response_dict !! lit "en"))
                        (Some lang)
            end;
          mret ({[ lit "detected_language" := PStr lang;
                   lit "intent" := PStr intent;
                   lit "response" := PStr reply ]} : gmap pystr pyval)) w2
      (fun r _ =>
         exists lang0 intent0 reply,
           r = inr (ChatResult lang0 intent0 reply) /\
           (langdetect env = None -> lang0 = _ld_detect (PStr msg)) /\
           (intent0 = _rule_based_intent (self w) msg \/
            exists label, intent0 = _parse_label_to_intent (self w) label) /\
           (model_loaded (self w) = false ->
            intent0 = _rule_based_intent (self w) msg) /\
           (forall canned,
              default fb (RESPONSES (self w) !! intent0) !! lang0 = Some canned ->
              reply = canned))) as Hrest.
  { intros intent w2 Hintent Hrule. post_step. unfold getitem. rewrite Hfb.
    post_step. post_step.
    destruct (default fb (RESPONSES (self w) !! intent) !! lang) as [canned|] eqn:Hc.
    - post_step. post_step. exists lang, intent, canned.
      split_and!; [done|by intros; apply Hlang|done|done|congruence].
    - eapply post_mono; [apply translate_text_post|].
      intros r w3 (_ & t & ->). post_step. exists lang, intent, t.
      split_and!; [done|by intros; apply Hlang|done|done|congruence]. }
  post_step.
  destruct (model_loaded (self w)) eqn:Hloaded, (classifier (self w)) as [run|];
    try (post_step; apply Hrest; [by left|done]).
  post_step. post_step. post_step. destruct r as [e|out].
  - post_step. post_step. post_step. apply Hrest; [by left|done].
  - post_step. post_step. destruct (getitem0 out) as [e|pred].
    + post_step. post_step. post_step. apply Hrest; [by left|done].
    + post_step. apply Hrest; [right; eauto|done].
Qed.

(** ** Sessions *)

Lemma init_self (name : pystr) (out : list pystr) (e : E) :
  exists loaded c, self (__init__ env name out e) = fresh_bot name loaded c.
Proof.
  unfold __init__. destruct (transformers env) as [load|]; [|by eauto].
  destruct (load name e) as [[err|pipe] e']; by eauto.
Qed.

Lemma calls_keep_self (history : list pyval) (w : World) :
  self (fold_left (fun w message => (chat env message w).2) history w) = self w.
Proof.
  revert w. induction history as [|message history IH]; intros w; simpl; [done|].
  rewrite IH. apply chat_keeps_self.
Qed.

Lemma session_self (name : pystr) (out : list pystr) (e : E) (history : list pyval) :
  self (session env name out e history) = self (__init__ env name out e).
Proof. apply calls_keep_self. Qed.

Lemma session_bot (name : pystr) (out : list pystr) (e : E) (history : list pyval) :
  exists loaded c, self (session env name out e history) = fresh_bot name loaded c.
Proof. rewrite session_self. apply init_self. Qed.

End MethodFacts.

(** ** The constructor's tables *)

Section Tables.
Context `{PyRuntime} {E : Type}.

#[local] Abbreviation MultilingualChatbot := (MultilingualChatbot (E:=E)).

Lemma table_fallback :
  RESPONSES_table !! lit "fallback"
  = Some {[ lit "en" := lit "Sorry, I didn't understand that.";
            lit "es" := lit "Lo siento, no entendí eso.";
            lit "fr" := lit "Désolé, je n'ai pas compris cela." ]}.
Proof. vm_compute. reflexivity. Qed.

(** Every intent has a canned text in each of the three languages. *)
Lemma table_complete (intent lang : pystr) :
  intent ∈ Intent -> lang ∈ heuristic_codes ->
  exists family canned,
    RESPONSES_table !! intent = Some family /\ family !! lang = Some canned.
Proof.
  unfold Intent, heuristic_codes. rewrite !elem_of_cons, !elem_of_nil.
  intros [->|[->|[->|[]]]] [->|[->|[->|[]]]];
    eexists _, _; split; vm_compute; reflexivity.
Qed.

Lemma table_nonempty (lang s : pystr) :
  default ∅ (RESPONSES_table !! lit "fallback") !! lang = Some s -> s <> [].
Proof.
  rewrite table_fallback. simpl.
  rewrite !lookup_insert_Some, lookup_singleton_Some.
  intros [[? <-]|[? [[? <-]|[? [? <-]]]]]; discriminate.
Qed.

Lemma label_map_intents (idx : Z) :
  default (lit "fallback") (LABEL_MAP_table !! idx) ∈ Intent.
Proof.
  unfold LABEL_MAP_table, Intent.
  destruct (_ !! idx) as [v|] eqn:Hv; simpl; [|set_solver].
  rewrite !lookup_insert_Some, lookup_singleton_Some in Hv.
  rewrite !elem_of_cons.
  destruct Hv as [[? <-]|[? [[? <-]|[? [? <-]]]]]; auto.
Qed.

Lemma rule_based_intents (this : MultilingualChatbot) (text : pystr) :
  _rule_based_intent this text ∈ Intent.
Proof.
  unfold _rule_based_intent, Intent. rewrite !for_return_const.
  repeat case_match; simplify_eq; set_solver.
Qed.

Lemma parse_label_intents (this : MultilingualChatbot) (label : pyval) :
  LABEL_MAP this = LABEL_MAP_table ->
  _parse_label_to_intent this label ∈ Intent.
Proof.
  intros Hmap. unfold _parse_label_to_intent. rewrite Hmap.
  assert (lit "fallback" ∈ Intent) as Hfallback
    by (unfold Intent; rewrite !elem_of_cons; auto).
  assert (lit "greeting" ∈ Intent) as Hgreeting
    by (unfold Intent; rewrite !elem_of_cons; auto).
  destruct label; try assumption;
    (destruct (re_search_digits _);
     [apply label_map_intents | case_match; assumption]).
Qed.

Lemma find_existsb {A B : Type} (test : A -> bool) (xs : list A) (a b : B) :
  match find test xs with Some _ => a | None => b end
  = if existsb test xs then a else b.
Proof.
  induction xs as [|x xs IH]; simpl; [reflexivity|]. by destruct (test x).
Qed.

Lemma for_return_default {A R : Type} (xs : list A) (test : A -> bool) (r d : R) :
  match for_return xs (fun x => if test x then Some r else None) with
  | Some v => v
  | None => d
  end = if existsb test xs then r else d.
Proof. rewrite for_return_const. by destruct (existsb test xs). Qed.

Lemma ld_detect_reference (text : pyval) :
  _ld_detect text = heuristic_reference text.
Proof.
  destruct text as [| | |s| |]; try reflexivity.
  unfold _ld_detect, heuristic_reference.
  destruct (truthy (strip s)) eqn:Hstrip; simpl negb; cbv iota.
  - assert (s <> []) as Hs by (intros ->; discriminate).
    destruct s as [|c s]; [done|]. cbv zeta.
    rewrite !re_search_class_members, !find_existsb, !for_return_default.
    unfold spanish_markers, french_markers.
    repeat case_match; reflexivity.
  - apply truthy_false in Hstrip. destruct s as [|c s]; [reflexivity|].
    rewrite Hstrip, lower_empty. reflexivity.
Qed.

Lemma ld_detect_codes (text : pyval) : _ld_detect text ∈ heuristic_codes.
Proof.
  rewrite ld_detect_reference. unfold heuristic_reference, heuristic_codes.
  repeat case_match; set_solver.
Qed.

Lemma rule_based_reference_eq (this : MultilingualChatbot) (text : pystr) :
  _greeting_keywords this = greeting_keywords_list ->
  _order_keywords this = order_keywords_list ->
  _rule_based_intent this text = rule_based_reference text.
Proof.
  intros Hg Ho. unfold _rule_based_intent, rule_based_reference.
  rewrite Hg, Ho. cbv zeta.
  rewrite !find_existsb, !for_return_default. reflexivity.
Qed.

End Tables.

(** ** Labels in Latin-1 text

    On Latin-1 text the label parser does not depend on the runtime: it is
    the parser of [latin1_runtime], which computes. *)

Section Latin1Labels.
Context `{PyRuntime} {E : Type}.

#[local] Abbreviation MultilingualChatbot := (MultilingualChatbot (E:=E)).

Lemma isdecimal_latin1 (c : codepoint) :
  (c <? 256)%N = true -> isdecimal c = isdecimal (H := latin1_runtime) c.
Proof.
  intros Hc. unfold isdecimal. by rewrite decimal_latin1 by by apply N.ltb_lt.
Qed.

Lemma span_digits_latin1 (s : pystr) :
  is_latin1 s = true ->
  span_digits s = span_digits (H := latin1_runtime) s /\
  is_latin1 (span_digits s) = true.
Proof.
  induction s as [|c s IH]; simpl; [done|].
  intros [Hc Hs]%andb_prop. destruct (IH Hs) as [IH1 IH2].
  rewrite (isdecimal_latin1 c Hc).
  destruct (isdecimal (H := latin1_runtime) c); simpl; [|done].
  by rewrite IH1, Hc, <- IH1.
Qed.

Lemma re_search_digits_latin1 (s : pystr) :
  is_latin1 s = true ->
  re_search_digits s = re_search_digits (H := latin1_runtime) s /\
  forall group1, re_search_digits s = Some group1 -> is_latin1 group1 = true.
Proof.
  induction s as [|c s IH]; simpl; [done|].
  intros [Hc Hs]%andb_prop. destruct (IH Hs) as [IH1 IH2].
  destruct (span_digits_latin1 s Hs) as [Hspan Hspan1].
  rewrite (isdecimal_latin1 c Hc).
  destruct (isdecimal (H := latin1_runtime) c); [|done].
  split; [by rewrite Hspan|].
  intros group1 [= <-]. simpl. by rewrite Hc.
Qed.

Lemma int_latin1 (s : pystr) :
  is_latin1 s = true -> int s = int (H := latin1_runtime) s.
Proof.
  unfold int. generalize 0%Z. induction s as [|c s IH]; simpl; [done|].
  intros acc [Hc Hs]%andb_prop.
  rewrite decimal_latin1 by by apply N.ltb_lt. by apply IH.
Qed.

Lemma parse_label_latin1 (this : MultilingualChatbot) (s : pystr) :
  is_latin1 s = true ->
  _parse_label_to_intent this (PStr s)
  = _parse_label_to_intent (H := latin1_runtime) this (PStr s).
Proof.
  intros Hs. unfold _parse_label_to_intent, str.
  destruct (re_search_digits_latin1 s Hs) as [-> Hgroup].
  destruct (re_search_digits (H := latin1_runtime) s) as [group1|] eqn:Hsearch.
  - rewrite int_latin1; [done|].
    apply Hgroup. destruct (re_search_digits_latin1 s Hs) as [-> _]. done.
  - by rewrite lower_latin1_text.
Qed.

(** The labels of a three-class model, under every runtime. *)
Lemma parse_model_labels (this : MultilingualChatbot) :
  LABEL_MAP this = LABEL_MAP_table ->
  _parse_label_to_intent this (PStr (lit "LABEL_0")) = lit "order_status" /\
  _parse_label_to_intent this (PStr (lit "LABEL_1")) = lit "greeting" /\
  _parse_label_to_intent this (PStr (lit "LABEL_2")) = lit "fallback".
Proof.
  intros Hmap. rewrite !parse_label_latin1 by done.
  unfold _parse_label_to_intent. rewrite Hmap. by vm_compute.
Qed.

End Latin1Labels.

(** * The properties of the specification *)

Section Specification.
Context `{PyRuntime} {E : Type}.
Variable env : Env (E := E).

(** In every world of a session the chatbot holds the constructor's tables. *)
Lemma session_tables (name : pystr) (out : list pystr) (e : E) (history : list pyval) :
  let this := self (session env name out e history) in
  RESPONSES this = RESPONSES_table /\ LABEL_MAP this = LABEL_MAP_table /\
  _greeting_keywords this = greeting_keywords_list /\
  _order_keywords this = order_keywords_list.
Proof.
  destruct (session_bot env name out e history) as (loaded & c & ->). done.
Qed.

(** What [chat] returns on a string in a session. *)
Lemma session_chat (name : pystr) (out : list pystr) (e : E) (history : list pyval)
    (msg : pystr) :
  let w := session env name out e history in
  exists lang intent reply,
    (chat env (PStr msg) w).1 = inr (ChatResult lang intent reply) /\
    (langdetect env = None -> lang = _ld_detect (PStr msg)) /\
    intent ∈ Intent /\
    (model_loaded (self w) = false -> intent = _rule_based_intent (self w) msg) /\
    (forall family canned,
       RESPONSES_table !! intent = Some family -> family !! lang = Some canned ->
       reply = canned).
Proof.
  intros w.
  destruct (session_tables name out e history) as (Hresp & Hmap & _). fold w in Hresp, Hmap.
  pose proof table_fallback as Hfb. rewrite <- Hresp in Hfb.
  destruct (chat_text_post env msg w _ Hfb)
    as (lang & intent & reply & Hr & Hlang & Hintent & Hrule & Hreply).
  exists lang, intent, reply. split_and!; try done.
  - destruct Hintent as [->| [label ->]];
      [apply rule_based_intents | by apply parse_label_intents].
  - intros family canned Hfam Hcanned. apply Hreply.
    by rewrite Hresp, Hfam.
Qed.

(** C1. For every string message, [chat] returns (it raises nothing once the
    type of the message is checked) a dictionary whose keys are exactly
    [detected_language], [intent] and [response], none of them bound to
    [None].  This holds in every world of every session, whatever the three
    optional packages do. *)
Theorem chat_returns_three_fields
    (name : pystr) (out : list pystr) (e : E) (history : list pyval) (msg : pystr) :
  exists result : gmap pystr pyval,
    (chat env (PStr msg) (session env name out e history)).1 = inr result /\
    dom result = {[ lit "detected_language"; lit "intent"; lit "response" ]} /\
    forall key value, result !! key = Some value -> value <> PNone.
Proof.
  destruct (session_chat name out e history msg)
    as (lang & intent & reply & Hr & _).
  exists (ChatResult lang intent reply). split; [done|]. unfold ChatResult. split.
  - rewrite !dom_insert_L, dom_singleton_L. set_solver.
  - intros key value.
    rewrite !lookup_insert_Some, lookup_singleton_Some.
    intros [[? <-]|[? [[? <-]|[? [? <-]]]]]; discriminate.
Qed.

(** C2. [chat] raises exactly when the message is not a string; the exception
    is then the [ValueError] of the type check, nothing is returned, and the
    world (the chatbot, the output, the external world) is as before. *)
Theorem chat_invalid_input
    (name : pystr) (out : list pystr) (e : E) (history : list pyval) (message : pyval) :
  let w := session env name out e history in
  ((exists err, (chat env message w).1 = inl err) <-> isinstance_str message = false) /\
  (isinstance_str message = false ->
   chat env message w = (inl (ValueError (lit "message must be a string")), w)).
Proof.
  intros w.
  assert (isinstance_str message = false ->
          chat env message w = (inl (ValueError (lit "message must be a string")), w))
    as Hraise by (by destruct message).
  split; [|done]. split.
  - intros [err Herr]. destruct message as [| | |msg| |]; try done.
    destruct (session_chat name out e history msg) as (lang & intent & reply & Hr & _).
    fold w in Hr. congruence.
  - intros Hnot. rewrite (Hraise Hnot). eauto.
Qed.

(** C3. The intent that [chat] returns for a string is one of
    [order_status], [greeting], [fallback]; so is every value of the
    rule-based classifier and of the label parser. *)
Theorem intent_closed_enumeration
    (name : pystr) (out : list pystr) (e : E) (history : list pyval) :
  let w := session env name out e history in
  (forall msg, exists lang intent reply,
     (chat env (PStr msg) w).1 = inr (ChatResult lang intent reply) /\
     intent ∈ Intent) /\
  (forall text, _rule_based_intent (self w) text ∈ Intent) /\
  (forall label, _parse_label_to_intent (self w) label ∈ Intent).
Proof.
  intros w. split_and!.
  - intros msg.
    destruct (session_chat name out e history msg)
      as (lang & intent & reply & Hr & _ & Hintent & _).
    by exists lang, intent, reply.
  - intros text. apply rule_based_intents.
  - intros label. apply parse_label_intents.
    apply (session_tables name out e history).
Qed.

(** C4. Without [langdetect], the detector is the seven-step reference
    procedure of the specification, and it has no effect. *)
Theorem detect_heuristic_reference (text : pyval) (w : World) :
  langdetect env = None ->
  detect env text w = (inr (heuristic_reference text), w).
Proof.
  intros Hnone. unfold detect. rewrite Hnone.
  by rewrite <- ld_detect_reference.
Qed.

(** C5. The rule-based classifier of a session's chatbot is the reference
    definition of the specification. *)
Theorem rule_based_intent_reference
    (name : pystr) (out : list pystr) (e : E) (history : list pyval) (text : pystr) :
  _rule_based_intent (self (session env name out e history)) text
  = rule_based_reference text.
Proof.
  destruct (session_tables name out e history) as (_ & _ & Hg & Ho).
  by apply rule_based_reference_eq.
Qed.

(** C6. A text that mentions a greeting keyword and an order keyword is
    classified as a greeting. *)
Theorem greeting_precedence
    (name : pystr) (out : list pystr) (e : E) (history : list pyval) (text : pystr) :
  mentions greeting_keywords_reference text = true ->
  mentions order_keywords_reference text = true ->
  _rule_based_intent (self (session env name out e history)) text = lit "greeting".
Proof.
  intros Hgreeting _.
  destruct (session_tables name out e history) as (_ & _ & Hg & _).
  unfold _rule_based_intent. rewrite Hg, for_return_default.
  unfold mentions, greeting_keywords_reference in Hgreeting.
  unfold greeting_keywords_list. by rewrite Hgreeting.
Qed.

(** C7. Without a translation service, [translate_text] is the built-in rule
    of the specification over the chatbot's response table, and it has no
    effect. *)
Theorem translate_text_builtin_rule
    (name : pystr) (out : list pystr) (e : E) (history : list pyval)
    (text dest_lang : pystr) :
  deep_translator env = None ->
  let w := session env name out e history in
  translate_text env text (Some dest_lang) w
  = (inr (builtin_translation_reference (RESPONSES (self w)) text dest_lang), w).
Proof.
  intros Hnone w. apply translate_text_builtin; [done|].
  destruct (session_tables name out e history) as (Hresp & _). fold w in Hresp.
  rewrite Hresp. apply table_nonempty.
Qed.

(** C8. With the heuristic detector and the rule-based classifier, the
    message [¿Dónde está mi pedido?] is answered in Spanish with the status of
    the order. *)
Theorem chat_donde_esta_mi_pedido
    (name : pystr) (out : list pystr) (e : E) (history : list pyval) :
  langdetect env = None ->
  model_loaded (self (session env name out e history)) = false ->
  (chat env (PStr (lit "¿Dónde está mi pedido?")) (session env name out e history)).1
  = inr (ChatResult (lit "es") (lit "order_status")
           (lit "Su pedido está en camino y llegará mañana.")).
Proof.
  intros Hheuristic Hrules.
  destruct (session_chat name out e history (lit "¿Dónde está mi pedido?"))
    as (lang & intent & reply & -> & Hlang & _ & Hintent & Hreply).
  specialize (Hlang Hheuristic). specialize (Hintent Hrules).
  destruct (session_tables name out e history) as (_ & _ & Hg & Ho).
  rewrite (rule_based_reference_eq _ _ Hg Ho) in Hintent.
  rewrite ld_detect_reference in Hlang.
  assert (lower (lit "¿Dónde está mi pedido?") = lit "¿dónde está mi pedido?") as Hlower.
  { rewrite lower_latin1_text; by vm_compute. }
  assert (lang = lit "es") as ->.
  { rewrite Hlang. unfold heuristic_reference.
    change (strip (lit "¿Dónde está mi pedido?")) with (lit "¿Dónde está mi pedido?").
    change (lit "¿Dónde está mi pedido?") with (191%N :: lit "Dónde está mi pedido?") at 1.
    cbv iota zeta. rewrite Hlower. by vm_compute. }
  assert (intent = lit "order_status") as ->.
  { rewrite Hintent. unfold rule_based_reference. rewrite Hlower. by vm_compute. }
  by rewrite (Hreply _ (lit "Su pedido está en camino y llegará mañana.") eq_refl eq_refl).
Qed.

(** C9. A call of [chat] on a string leaves the chatbot object as it was, in
    every world: the response table, the keyword lists, the label map, the
    model name, [model_loaded] and [classifier] are the same after the call. *)
Theorem chat_leaves_chatbot_unchanged (msg : pystr) (w : World) :
  let w' := (chat env (PStr msg) w).2 in
  self w' = self w /\
  RESPONSES (self w') = RESPONSES (self w) /\
  _greeting_keywords (self w') = _greeting_keywords (self w) /\
  _order_keywords (self w') = _order_keywords (self w) /\
  LABEL_MAP (self w') = LABEL_MAP (self w) /\
  model_loaded (self w') = model_loaded (self w) /\
  classifier (self w') = classifier (self w).
Proof.
  intros w'. assert (self w' = self w) as -> by apply chat_keeps_self. done.
Qed.

(** C10. The heuristic detector answers [en], [es] or [fr] only; so, without
    [langdetect], the response of [chat] is the canned text that the response
    table holds for the returned intent and language: the look-up hits and
    [translate_text] is not reached. *)
Theorem heuristic_response_is_canned
    (name : pystr) (out : list pystr) (e : E) (history : list pyval) :
  langdetect env = None ->
  let w := session env name out e history in
  (forall text, _ld_detect text ∈ heuristic_codes) /\
  (forall msg, exists lang intent family canned,
     (chat env (PStr msg) w).1 = inr (ChatResult lang intent canned) /\
     lang = _ld_detect (PStr msg) /\
     RESPONSES (self w) !! intent = Some family /\
     family !! lang = Some canned).
Proof.
  intros Hheuristic w. split; [apply ld_detect_codes|]. intros msg.
  destruct (session_chat name out e history msg)
    as (lang & intent & reply & Hr & Hlang & Hintent & _ & Hreply).
  specialize (Hlang Hheuristic).
  destruct (table_complete intent lang Hintent) as (family & canned & Hfam & Hcanned).
  { rewrite Hlang. apply ld_detect_codes. }
  exists lang, intent, family, canned. split_and!; try done.
  - by rewrite (Hreply family canned Hfam Hcanned) in Hr.
  - destruct (session_tables name out e history) as (Hresp & _). fold w in Hresp.
    by rewrite Hresp.
Qed.

End Specification.

(** * The model at work

    The claims with a premise, applied on a machine without the optional
    packages, and the module's own local tests. *)

Section Runs.
#[local] Existing Instance latin1_runtime.

#[local] Abbreviation demo := (session bare_env default_model_name [] () earlier_requests).

Lemma detect_heuristic_reference_witness :
  langdetect bare_env = None /\
  detect bare_env (PStr (lit "  Gracias por tu ayuda ")) demo
  = (inr (heuristic_reference (PStr (lit "  Gracias por tu ayuda "))), demo).
Proof.
  split; [reflexivity|].
  apply (detect_heuristic_reference bare_env). reflexivity.
Defined.

Lemma greeting_precedence_witness :
  mentions greeting_keywords_reference (lit "Hello, WHERE is my order?") = true /\
  mentions order_keywords_reference (lit "Hello, WHERE is my order?") = true /\
  _rule_based_intent (self demo) (lit "Hello, WHERE is my order?") = lit "greeting".
Proof.
  split; [vm_compute; reflexivity|]. split; [vm_compute; reflexivity|].
  apply (greeting_precedence bare_env); vm_compute; reflexivity.
Defined.

Lemma translate_text_builtin_rule_witness :
  deep_translator bare_env = None /\
  translate_text bare_env (lit "Hello! How can I assist you today?") (Some (lit "es-MX")) demo
  = (inr (builtin_translation_reference (RESPONSES (self demo))
            (lit "Hello! How can I assist you today?") (lit "es-MX")), demo).
Proof.
  split; [reflexivity|].
  apply (translate_text_builtin_rule bare_env). reflexivity.
Defined.

Lemma chat_donde_esta_mi_pedido_witness :
  langdetect bare_env = None /\
  model_loaded (self demo) = false /\
  (chat bare_env (PStr (lit "¿Dónde está mi pedido?")) demo).1
  = inr (ChatResult (lit "es") (lit "order_status")
           (lit "Su pedido está en camino y llegará mañana.")).
Proof.
  split; [reflexivity|]. split; [vm_compute; reflexivity|].
  apply (chat_donde_esta_mi_pedido bare_env); [reflexivity|vm_compute; reflexivity].
Defined.

Lemma heuristic_response_is_canned_witness :
  langdetect bare_env = None /\
  (forall text, _ld_detect text ∈ heuristic_codes) /\
  (forall msg, exists lang intent family canned,
     (chat bare_env (PStr msg) demo).1 = inr (ChatResult lang intent canned) /\
     lang = _ld_detect (PStr msg) /\
     RESPONSES (self demo) !! intent = Some family /\
     family !! lang = Some canned).
Proof.
  split; [reflexivity|].
  apply (heuristic_response_is_canned bare_env). reflexivity.
Defined.

(** The value of the built-in rule in the run above. *)
Example translate_text_es_mx :
  (translate_text bare_env (lit "Hello! How can I assist you today?")
     (Some (lit "es-MX")) demo).1
  = inr (lit "Lo siento, no entendí eso.").
Proof. vm_compute. reflexivity. Qed.

(** The local tests of the module. *)
Example chat_hello :
  (chat bare_env (PStr (lit "Hello")) demo).1
  = inr (ChatResult (lit "en") (lit "greeting") (lit "Hello! How can I assist you today?")).
Proof. vm_compute. reflexivity. Qed.

Example chat_bonjour :
  (chat bare_env (PStr (lit "Bonjour")) demo).1
  = inr (ChatResult (lit "fr") (lit "greeting")
           (lit "Bonjour! Comment puis-je vous aider aujourd'hui?")).
Proof. vm_compute. reflexivity. Qed.

Example chat_where_is_my_order :
  (chat bare_env (PStr (lit "Where is my order?")) demo).1
  = inr (ChatResult (lit "en") (lit "order_status")
           (lit "Your order is on the way and will arrive tomorrow.")).
Proof. vm_compute. reflexivity. Qed.

Example chat_hola_como_estas :
  (chat bare_env (PStr (lit "¿Hola, cómo estás?")) demo).1
  = inr (ChatResult (lit "es") (lit "greeting") (lit "¡Hola! ¿Cómo puedo ayudarte hoy?")).
Proof. vm_compute. reflexivity. Qed.

Example chat_merci_beaucoup :
  (chat bare_env (PStr (lit "Merci beaucoup")) demo).1
  = inr (ChatResult (lit "fr") (lit "fallback") (lit "Désolé, je n'ai pas compris cela.")).
Proof. vm_compute. reflexivity. Qed.

Example chat_ciao :
  (chat bare_env (PStr (lit "Ciao")) demo).1
  = inr (ChatResult (lit "en") (lit "fallback") (lit "Sorry, I didn't understand that.")).
Proof. vm_compute. reflexivity. Qed.

Example chat_not_a_string :
  chat bare_env (PInt 7) demo = (inl (ValueError (lit "message must be a string")), demo).
Proof. reflexivity. Qed.

(** Labels of the model, parsed. *)
Example parse_label_1 :
  _parse_label_to_intent (self demo) (PStr (lit "LABEL_1")) = lit "greeting".
Proof. vm_compute. reflexivity. Qed.

Example parse_label_7 :
  _parse_label_to_intent (self demo) (PStr (lit "LABEL_7")) = lit "fallback".
Proof. vm_compute. reflexivity. Qed.

Example parse_label_greet :
  _parse_label_to_intent (self demo) (PStr (lit "Greeting")) = lit "greeting".
Proof. vm_compute. reflexivity. Qed.

Example parse_label_none :
  _parse_label_to_intent (self demo) PNone = lit "fallback".
Proof. reflexivity. Qed.

End Runs.

(** * More about the code *)

(** ** Substrings and trimming *)

Section MoreStringFacts.

Lemma startswith_spec (p s : pystr) :
  startswith p s = true <-> exists t, s = p ++ t.
Proof.
  revert s. induction p as [|a p IH]; intros s; simpl.
  - split; [by exists s | done].
  - destruct s as [|b s]; [split; [done | by intros [t [=]]]|].
    rewrite andb_true_iff, N.eqb_eq, IH. split.
    + intros [-> [t ->]]. by exists t.
    + intros [t [= -> ->]]. eauto.
Qed.

(** [sub in s] holds exactly when [s] is some text, then [sub], then some
    text. *)
Lemma contains_spec (sub s : pystr) :
  contains sub s = true <-> exists before after, s = before ++ sub ++ after.
Proof.
  induction s as [|c s IH]; simpl.
  - rewrite orb_false_r, startswith_spec. split.
    + intros [t Ht]. by exists [], t.
    + intros (before & after & Hs). destruct before; [by exists after|done].
  - rewrite orb_true_iff, startswith_spec, IH. split.
    + intros [[t Ht]|(before & after & ->)]; [by exists [], t|].
      by exists (c :: before), after.
    + intros ([|b before] & after & Hs); [left; by exists after|].
      right. injection Hs as -> ->. by exists before, after.
Qed.

Lemma contains_trans (a b s : pystr) :
  contains a b = true -> contains b s = true -> contains a s = true.
Proof.
  rewrite !contains_spec. intros (p1 & q1 & ->) (p2 & q2 & ->).
  exists (p2 ++ p1), (q1 ++ q2). by rewrite <- !app_assoc.
Qed.

Lemma occurs_elem (c : codepoint) (s : pystr) :
  existsb (N.eqb c) s = true <-> c ∈ s.
Proof.
  rewrite existsb_exists. split.
  - intros (d & Hd & ->%N.eqb_eq). by apply list_elem_of_In.
  - intros Hc. exists c. split; [by apply list_elem_of_In | apply N.eqb_refl].
Qed.

(** Every character of a substring occurs in the text. *)
Lemma contains_occurs (sub s : pystr) (c : codepoint) :
  contains sub s = true -> c ∈ sub -> existsb (N.eqb c) s = true.
Proof.
  rewrite contains_spec, occurs_elem. intros (before & after & ->) Hc.
  rewrite !elem_of_app. auto.
Qed.

Lemma re_search_class_occurs (cls s : pystr) :
  re_search_class cls s = true <-> exists c, c ∈ cls /\ c ∈ s.
Proof.
  unfold re_search_class. rewrite existsb_exists. split.
  - intros (c & Hc & Hcls). exists c. split.
    + apply existsb_exists in Hcls as (d & Hd & ->%N.eqb_eq). by apply list_elem_of_In.
    + by apply list_elem_of_In.
  - intros (c & Hcls & Hs). exists c. split; [by apply list_elem_of_In|].
    apply existsb_exists. exists c. split; [by apply list_elem_of_In | apply N.eqb_refl].
Qed.

(** What [lstrip] takes away is white space, and what it leaves does not
    begin with white space. *)
Lemma lstrip_spec (s : pystr) :
  exists spaces, s = spaces ++ lstrip s /\ forallb isspace spaces = true.
Proof.
  induction s as [|c s (spaces & Hs & Hspaces)]; simpl; [by exists []|].
  destruct (isspace c) eqn:Hc; [|by exists []].
  exists (c :: spaces). simpl. rewrite Hc, Hspaces. by rewrite <- Hs.
Qed.

Lemma rstrip_spec (s : pystr) :
  exists spaces, s = rstrip s ++ spaces /\ forallb isspace spaces = true.
Proof.
  unfold rstrip. destruct (lstrip_spec (reverse s)) as (spaces & Hs & Hspaces).
  exists (reverse spaces). split.
  - rewrite <- reverse_app, <- Hs. by rewrite reverse_involutive.
  - rewrite forallb_forall in *. intros c Hc. apply Hspaces.
    apply list_elem_of_In. apply list_elem_of_In in Hc. by apply elem_of_reverse.
Qed.

Lemma strip_spec (s : pystr) :
  exists left right,
    s = left ++ strip s ++ right /\
    forallb isspace left = true /\ forallb isspace right = true.
Proof.
  destruct (lstrip_spec s) as (left & Hleft & Hl).
  destruct (rstrip_spec (lstrip s)) as (right & Hright & Hr).
  exists left, right. unfold strip. by rewrite <- Hright.
Qed.

(** Trimming keeps every character that is not white space. *)
Lemma strip_occurs (c : codepoint) (s : pystr) :
  isspace c = false -> c ∈ s -> c ∈ strip s.
Proof.
  intros Hc. destruct (strip_spec s) as (left & right & Hs & Hl & Hr).
  rewrite Hs at 1. rewrite !elem_of_app. intros [Hin|[Hin|Hin]]; [|done|].
  - rewrite forallb_forall in Hl. apply list_elem_of_In, Hl in Hin. congruence.
  - rewrite forallb_forall in Hr. apply list_elem_of_In, Hr in Hin. congruence.
Qed.

Lemma strip_latin1 (s : pystr) : is_latin1 s = true -> is_latin1 (strip s) = true.
Proof.
  destruct (strip_spec s) as (left & right & Hs & _). unfold is_latin1.
  rewrite Hs at 1. rewrite !forallb_app, !andb_true_iff. tauto.
Qed.

(** White space only trims to the empty string. *)
Lemma lstrip_spaces (s : pystr) : forallb isspace s = true -> lstrip s = [].
Proof.
  induction s as [|c s IH]; simpl; [done|].
  intros [-> Hs]%andb_prop. auto.
Qed.

Lemma strip_spaces (s : pystr) : forallb isspace s = true -> strip s = [].
Proof. intros Hs. unfold strip. by rewrite lstrip_spaces. Qed.

(** Trimming commutes with a mapping of characters that keeps white space
    apart. *)
Lemma lstrip_fmap (f : codepoint -> codepoint) (s : pystr) :
  (forall c, isspace (f c) = isspace c) -> lstrip (f <$> s) = f <$> lstrip s.
Proof.
  intros Hf. induction s as [|c s IH]; simpl; [done|].
  rewrite Hf. by destruct (isspace c).
Qed.

Lemma strip_fmap (f : codepoint -> codepoint) (s : pystr) :
  (forall c, isspace (f c) = isspace c) -> strip (f <$> s) = f <$> strip s.
Proof.
  intros Hf. unfold strip, rstrip.
  by rewrite lstrip_fmap, <- fmap_reverse, lstrip_fmap, fmap_reverse.
Qed.

Lemma isspace_latin1_lower (c : codepoint) : isspace (latin1_lower c) = isspace c.
Proof.
  assert (forall d : N, (33 <= d < 0x85 \/ 0xA0 < d < 0x1680)%N -> isspace d = false)
    as Hletter.
  { intros d Hd. unfold isspace.
    repeat match goal with
    | |- context [(?a <=? ?b)%N] =>
      first [rewrite (proj2 (N.leb_gt a b)) by lia
            |rewrite (proj2 (N.leb_le a b)) by lia]
    | |- context [(?a =? ?b)%N] => rewrite (proj2 (N.eqb_neq a b)) by lia
    end; reflexivity. }
  unfold latin1_lower.
  destruct ((65 <=? c)%N && (c <=? 90)%N) eqn:Hupper.
  - apply andb_prop in Hupper as [?%N.leb_le ?%N.leb_le].
    rewrite !Hletter by lia. done.
  - destruct ((0xC0 <=? c)%N && (c <=? 0xDE)%N && negb (c =? 0xD7)%N) eqn:Haccent; [|done].
    apply andb_prop in Haccent as [[?%N.leb_le ?%N.leb_le]%andb_prop _].
    rewrite !Hletter by lia. done.
Qed.

Lemma latin1_lower_bound (c : codepoint) :
  (c < 256)%N -> (latin1_lower c < 256)%N.
Proof.
  intros Hc. unfold latin1_lower.
  destruct ((65 <=? c)%N && (c <=? 90)%N) eqn:Hupper.
  - apply andb_prop in Hupper as [_ ?%N.leb_le]. lia.
  - destruct ((0xC0 <=? c)%N && (c <=? 0xDE)%N && negb (c =? 0xD7)%N) eqn:Haccent; [|done].
    apply andb_prop in Haccent as [[_ ?%N.leb_le]%andb_prop _]. lia.
Qed.

Lemma latin1_lower_latin1 (s : pystr) :
  is_latin1 s = true -> is_latin1 (latin1_lower <$> s) = true.
Proof.
  unfold is_latin1. rewrite !forallb_forall. intros Hs c Hc.
  apply list_elem_of_In, list_elem_of_fmap in Hc as (d & -> & Hd).
  apply N.ltb_lt, latin1_lower_bound, N.ltb_lt, Hs. by apply list_elem_of_In.
Qed.

End MoreStringFacts.

(** ** The heuristic detector *)

Section DetectorFacts.
Context `{PyRuntime}.

Lemma existsb_false_elem {A : Type} (test : A -> bool) (xs : list A) (x : A) :
  existsb test xs = false -> x ∈ xs -> test x = false.
Proof.
  intros Hxs Hx. destruct (test x) eqn:Htest; [|done].
  rewrite <- Hxs. symmetry. apply existsb_exists. exists x.
  split; [by apply list_elem_of_In | done].
Qed.

(** A text without a given character has no substring with it. *)
Lemma contains_without (c : codepoint) (sub txt : pystr) :
  contains [c] txt = false -> c ∈ sub -> contains sub txt = false.
Proof.
  intros Hc Hsub. destruct (contains sub txt) eqn:Hcontains; [|done].
  rewrite contains_singleton, (contains_occurs sub txt c) in Hc; done.
Qed.

(** The chain of tests of [_ld_detect] on the prepared text, and the same
    chain without the tests that cannot decide. *)
Lemma detector_chain (txt : pystr) :
  (if contains (lit "¿") txt || contains (lit "¡") txt then lit "es"
   else if re_search_class (lit "ñáéíóú") txt then lit "es"
   else if re_search_class (lit "àâçèéêëîïôûùü") txt then lit "fr"
   else
     match for_return spanish_markers
             (fun w => if contains w txt then Some (lit "es") else None) with
     | Some r => r
     | None =>
       match for_return french_markers
               (fun w => if contains w txt then Some (lit "fr") else None) with
       | Some r => r
       | None =>
         if in_tuple txt [lit "hello"; lit "hi"; lit "hey"] then lit "en"
         else lit "en"
       end
     end)
  = (if re_search_class (lit "¿¡ñáéíóú") txt then lit "es"
     else if re_search_class (lit "àâçèêëîïôûùü") txt then lit "fr"
     else if existsb (fun w => contains w txt)
               [lit "pedido"; lit "orden"; lit "envio"; lit "donde"; lit "hola";
                lit "gracias"; lit "por favor"] then lit "es"
     else if existsb (fun w => contains w txt)
               [lit "commande"; lit "ou"; lit "merci"; lit "salut"] then lit "fr"
     else lit "en").
Proof.
  rewrite !re_search_class_members, !for_return_default.
  unfold spanish_markers, french_markers.
  change (lit "¿¡ñáéíóú") with (191 :: 161 :: lit "ñáéíóú")%N.
  change (lit "¿") with [191%N]. change (lit "¡") with [161%N].
  assert (forall (test : N -> bool) (a b : N) (l : list N),
            existsb test (a :: b :: l) = test a || test b || existsb test l) as ->
    by (intros; simpl; apply orb_assoc).
  destruct (contains [191%N] txt || contains [161%N] txt); [done|]. cbn [orb].
  destruct (existsb (fun c => contains [c] txt) (lit "ñáéíóú")) eqn:Hspanish; [done|].
  assert (contains [233%N] txt = false) as He
    by (apply (existsb_false_elem _ _ _ Hspanish); vm_compute; set_solver).
  assert (contains [237%N] txt = false) as Hi
    by (apply (existsb_false_elem _ _ _ Hspanish); vm_compute; set_solver).
  assert (contains [243%N] txt = false) as Ho
    by (apply (existsb_false_elem _ _ _ Hspanish); vm_compute; set_solver).
  change (lit "àâçèéêëîïôûùü")
    with (224 :: 226 :: 231 :: 232 :: 233 :: lit "êëîïôûùü")%N.
  change (lit "àâçèêëîïôûùü") with (224 :: 226 :: 231 :: 232 :: lit "êëîïôûùü")%N.
  cbn [existsb]. rewrite He. cbn [orb].
  destruct (contains [224%N] txt || _) eqn:Hfrench; [done|].
  assert (contains [249%N] txt = false) as Hu.
  { apply (existsb_false_elem (fun c => contains [c] txt)
             (224 :: 226 :: 231 :: 232 :: lit "êëîïôûùü")%N); [done|].
    vm_compute; set_solver. }
  rewrite (contains_without 237 (lit "envío") txt Hi) by (vm_compute; set_solver).
  rewrite (contains_without 243 (lit "dónde") txt Ho) by (vm_compute; set_solver).
  rewrite (contains_without 249 (lit "où") txt Hu) by (vm_compute; set_solver).
  cbn [orb].
  match goal with |- (if ?b then _ else _) = _ => destruct b; [done|] end.
  assert (contains (lit "bonjour") txt = true -> contains (lit "ou") txt = true)
    as Hbonjour by (apply contains_trans; by vm_compute).
  destruct (contains (lit "bonjour") txt), (contains (lit "commande") txt),
    (contains (lit "ou") txt); cbn [orb]; try done;
    try (by discriminate Hbonjour); by destruct (in_tuple _ _), (_ || _).
Qed.

(** X4. The heuristic detector never decides by its test for emptiness, by
    the [é] of the French class, by the markers [envío], [dónde], [où] and
    [bonjour], or by its last comparison with the greetings: it is the
    detector without them. *)
Theorem ld_detect_dead_tests (text : pyval) :
  _ld_detect text = reduced_detector text.
Proof.
  destruct text as [| | |s| |]; try reflexivity.
  unfold _ld_detect, reduced_detector.
  destruct (truthy (strip s)) eqn:Hstrip; simpl negb; cbv iota zeta.
  - apply detector_chain.
  - apply truthy_false in Hstrip. by rewrite Hstrip, lower_empty.
Qed.

(** A character that is not white space and that lower-casing leaves alone
    is still there once a Latin-1 text is trimmed and lower-cased. *)
Lemma mark_survives (c : codepoint) (s : pystr) :
  is_latin1 s = true -> isspace c = false -> latin1_lower c = c -> c ∈ s ->
  truthy (strip s) = true /\ contains [c] (lower (strip s)) = true.
Proof.
  intros Hs Hspace Hlower Hc. apply (strip_occurs c s Hspace) in Hc. split.
  - destruct (strip s); [by apply elem_of_nil in Hc | done].
  - rewrite lower_latin1_text by by apply strip_latin1.
    rewrite contains_singleton, occurs_elem, <- Hlower.
    by apply list_elem_of_fmap_2.
Qed.

(** X3. A Latin-1 text with an inverted question mark or an inverted
    exclamation mark is detected as Spanish, whatever else it holds. *)
Theorem ld_detect_inverted_marks (s : pystr) :
  is_latin1 s = true ->
  contains (lit "¿") s || contains (lit "¡") s = true ->
  _ld_detect (PStr s) = lit "es".
Proof.
  intros Hs Hmark. unfold _ld_detect.
  change (lit "¿") with [191%N] in *. change (lit "¡") with [161%N] in *.
  apply orb_prop in Hmark as [Hmark|Hmark];
    rewrite contains_singleton, occurs_elem in Hmark;
    apply (mark_survives _ s Hs) in Hmark as [-> Hmark]; try done;
    cbv iota zeta; simpl negb; cbv iota; rewrite Hmark; [done|].
  by rewrite orb_true_r.
Qed.

(** On Latin-1 text, the prepared text of the detector is the trimmed
    lower-cased text. *)
Lemma lower_strip_latin1 (s : pystr) :
  is_latin1 s = true -> lower (strip s) = strip (latin1_lower <$> s).
Proof.
  intros Hs. rewrite lower_latin1_text by by apply strip_latin1.
  symmetry. apply strip_fmap, isspace_latin1_lower.
Qed.

Lemma truthy_fmap (f : codepoint -> codepoint) (s : pystr) :
  truthy (f <$> s) = truthy s.
Proof. by destruct s. Qed.

(** X5. Case does not matter on Latin-1 text: two texts with the same
    lower-cased form get the same language from the heuristic detector and
    the same intent from the rule-based classifier. *)
Theorem case_does_not_matter {E : Type} (this : MultilingualChatbot (E := E))
    (s1 s2 : pystr) :
  is_latin1 s1 = true -> is_latin1 s2 = true ->
  latin1_lower <$> s1 = latin1_lower <$> s2 ->
  _ld_detect (PStr s1) = _ld_detect (PStr s2) /\
  _rule_based_intent this s1 = _rule_based_intent this s2.
Proof.
  intros H1 H2 Hsame. split.
  - unfold _ld_detect.
    assert (truthy (strip s1) = truthy (strip s2)) as ->.
    { rewrite <- (truthy_fmap latin1_lower (strip s1)),
              <- (truthy_fmap latin1_lower (strip s2)).
      rewrite <- !strip_fmap by apply isspace_latin1_lower. by rewrite Hsame. }
    by rewrite !lower_strip_latin1, Hsame.
  - unfold _rule_based_intent. by rewrite !lower_latin1_text, Hsame.
Qed.

(** White space only is answered [en] at once. *)
Lemma ld_detect_blank (s : pystr) :
  forallb isspace s = true -> _ld_detect (PStr s) = lit "en".
Proof. intros Hs. unfold _ld_detect. by rewrite strip_spaces. Qed.

End DetectorFacts.

(** ** Running the methods *)

Section RunFacts.
Context `{PyRuntime} {E : Type}.
Variable env : Env (E := E).

#[local] Abbreviation World := (World (E:=E)).
#[local] Abbreviation MultilingualChatbot := (MultilingualChatbot (E:=E)).

Ltac run_monad :=
  cbv beta iota zeta
    delta [mret M_ret mbind M_bind try_except call print get_self lift raise getitem].

(** The built-in translations of [translate_text], as the code computes
    them. *)
Lemma translate_text_run (text : pystr) (dest_lang : option pystr) (w : World) :
  translate_text env text dest_lang w
  = let dest := lower (default (lit "") dest_lang) in
    let fallback := default ∅ (RESPONSES (self w) !! lit "fallback") in
    let builtin :=
      if startswith (lit "es") dest then py_or (fallback !! lit "es") text
      else if startswith (lit "fr") dest then py_or (fallback !! lit "fr") text
      else text in
    if startswith (lit "en") dest then (inr text, w)
    else
      match deep_translator env with
      | Some translate =>
        match translate dest text (ext w) with
        | (inr translated, e') =>
          (inr translated, {| self := self w; stdout := stdout w; ext := e' |})
        | (inl err, e') =>
          (inr builtin,
           {| self := self w;
              stdout := stdout w ++ [lit "Warning: translator failed: " ++ exn_str err
                                     ++ lit ". Falling back to built-in translations."];
              ext := e' |})
        end
      | None => (inr builtin, w)
      end.
Proof.
  unfold translate_text. cbv zeta.
  destruct (startswith (lit "en") _); [reflexivity|].
  destruct (deep_translator env) as [translate|]; run_monad.
  - destruct (translate _ text (ext w)) as [[err|translated] e']; cbv beta iota;
      [|reflexivity].
    by repeat case_match.
  - by repeat case_match.
Qed.

(** [chat] on a string, stage by stage. *)
Lemma chat_run (msg : pystr) (w : World) :
  chat env (PStr msg) w
  = match try_except (detect env (PStr msg)) (fun _ => mret (lit "en")) w with
    | (inr detected_lang, w1) =>
      match classify_block (self w1) msg w1 with
      | (inr intent, w2) => respond_block env (self w1) intent detected_lang w2
      | (inl err, w2) => (inl err, w2)
      end
    | (inl err, w1) => (inl err, w1)
    end.
Proof.
  unfold chat, classify_block, respond_block.
  unfold mbind at 1. unfold M_bind at 1. cbv beta.
  destruct (try_except _ _ w) as [[err|detected_lang] w1]; reflexivity.
Qed.

Lemma detect_run (text : pyval) (w : World) :
  try_except (detect env text) (fun _ => mret (lit "en")) w = detect env text w.
Proof.
  unfold try_except at 1.
  pose proof (detect_post env text w) as (_ & lang & Hr & _).
  destruct (detect env text w) as [[err|l] w1]; simpl in *; done.
Qed.

Lemma classify_block_rules (this : MultilingualChatbot) (msg : pystr) (w : World) :
  model_loaded this = false ->
  classify_block this msg w = (inr (_rule_based_intent this msg), w).
Proof. intros Hloaded. unfold classify_block. by rewrite Hloaded. Qed.

(** The classifier block with a loaded model. *)
Lemma classify_block_model (this : MultilingualChatbot) (run : Pipeline) (msg : pystr)
    (w : World) :
  model_loaded this = true -> classifier this = Some run ->
  classify_block this msg w
  = let warn err :=
      {| self := self w;
         stdout := stdout w ++ [lit "Warning: transformer classifier failed at runtime: "
                                ++ exn_str err];
         ext := (run msg (ext w)).2 |} in
    match (run msg (ext w)).1 with
    | inl err => (inr (_rule_based_intent this msg), warn err)
    | inr out =>
      match getitem0 out with
      | inl err => (inr (_rule_based_intent this msg), warn err)
      | inr pred =>
        (inr (_parse_label_to_intent this
                match pred with
                | PDict d => default PNone (d !! lit "label")
                | _ => PNone
                end),
         {| self := self w; stdout := stdout w; ext := (run msg (ext w)).2 |})
      end
    end.
Proof.
  intros Hloaded Hclassifier. unfold classify_block. rewrite Hloaded, Hclassifier.
  run_monad. destruct (run msg (ext w)) as [[err|out] e']; cbn [fst snd];
    cbv beta iota; [reflexivity|].
  destruct (getitem0 out); reflexivity.
Qed.

(** The reply block when the table has the text. *)
Lemma respond_block_canned (this : MultilingualChatbot) (intent lang : pystr)
    (family : gmap pystr pystr) (canned : pystr) (w : World) :
  RESPONSES this = RESPONSES_table ->
  RESPONSES_table !! intent = Some family -> family !! lang = Some canned ->
  respond_block env this intent lang w = (inr (ChatResult lang intent canned), w).
Proof.
  intros Hresp Hfamily Hcanned. unfold respond_block. rewrite Hresp. run_monad.
  rewrite table_fallback. cbv iota beta. rewrite Hfamily.
  cbv beta iota delta [default from_option id]. by rewrite Hcanned.
Qed.

(** The reply block when the table has no text in the language. *)
Lemma respond_block_translated (this : MultilingualChatbot) (intent lang : pystr)
    (family : gmap pystr pystr) (w : World) :
  RESPONSES this = RESPONSES_table ->
  RESPONSES_table !! intent = Some family -> family !! lang = None ->
  respond_block env this intent lang w
  = match translate_text env (default (lit "") (family !! lit "en")) (Some lang) w with
    | (inr reply, w') => (inr (ChatResult lang intent reply), w')
    | (inl err, w') => (inl err, w')
    end.
Proof.
  intros Hresp Hfamily Hcanned. unfold respond_block. rewrite Hresp. run_monad.
  rewrite table_fallback. cbv iota beta. rewrite Hfamily.
  change (default ?d (Some family)) with family. rewrite Hcanned.
  by destruct (translate_text env _ _ w) as [[err|reply] w'].
Qed.

End RunFacts.

(** ** More on the constructor's table *)

Section MoreTables.
Context `{PyRuntime}.

Lemma in_tuple_elem (s : pystr) (ts : list pystr) :
  in_tuple s ts = true <-> s ∈ ts.
Proof.
  unfold in_tuple, str_eqb. rewrite existsb_exists. split.
  - intros (t & Ht & Heq). apply bool_decide_eq_true in Heq. subst t.
    by apply list_elem_of_In.
  - intros Hs. exists s. split; [by apply list_elem_of_In|].
    by apply bool_decide_eq_true.
Qed.

(** Every text of the table is one of the nine canned texts. *)
Lemma table_canned (intent lang : pystr) (family : gmap pystr pystr) (canned : pystr) :
  RESPONSES_table !! intent = Some family -> family !! lang = Some canned ->
  canned ∈ canned_texts.
Proof.
  assert (forallb (fun entry : pystr * gmap pystr pystr =>
            forallb (fun text : pystr * pystr => in_tuple text.2 canned_texts)
              (map_to_list entry.2))
            (map_to_list RESPONSES_table) = true) as Hall
    by (vm_compute; reflexivity).
  intros Hfamily Hcanned.
  rewrite forallb_forall in Hall.
  apply elem_of_map_to_list, list_elem_of_In, Hall in Hfamily.
  rewrite forallb_forall in Hfamily.
  apply elem_of_map_to_list, list_elem_of_In, Hfamily in Hcanned.
  by apply in_tuple_elem.
Qed.

Lemma table_english (intent : pystr) :
  intent ∈ Intent ->
  exists family english,
    RESPONSES_table !! intent = Some family /\ family !! lit "en" = Some english.
Proof.
  intros Hintent. apply table_complete; [done|].
  apply in_tuple_elem. vm_compute. reflexivity.
Qed.

Lemma table_apologies :
  RESPONSES_table !! lit "fallback" ≫= (.!! lit "es") = Some (lit "Lo siento, no entendí eso.") /\
  RESPONSES_table !! lit "fallback" ≫= (.!! lit "fr")
  = Some (lit "Désolé, je n'ai pas compris cela.").
Proof. split; vm_compute; reflexivity. Qed.

(** The built-in rule over the constructor's table yields the text it is
    given or an apology of the table. *)
Lemma builtin_canned (text dest_lang : pystr) :
  text ∈ canned_texts ->
  builtin_translation_reference RESPONSES_table text dest_lang ∈ canned_texts.
Proof.
  intros Htext. unfold builtin_translation_reference.
  destruct table_apologies as [-> ->].
  repeat case_match; try done; apply in_tuple_elem; vm_compute; reflexivity.
Qed.

(** The table has texts in [en], [es] and [fr] only. *)
Lemma table_miss (intent lang : pystr) (family : gmap pystr pystr) :
  RESPONSES_table !! intent = Some family -> in_tuple lang heuristic_codes = false ->
  family !! lang = None.
Proof.
  assert (forallb (fun entry : pystr * gmap pystr pystr =>
            forallb (fun text : pystr * pystr => in_tuple text.1 heuristic_codes)
              (map_to_list entry.2))
            (map_to_list RESPONSES_table) = true) as Hall
    by (vm_compute; reflexivity).
  intros Hfamily Hlang. destruct (family !! lang) as [canned|] eqn:Hcanned; [|done].
  rewrite forallb_forall in Hall.
  apply elem_of_map_to_list, list_elem_of_In, Hall in Hfamily.
  rewrite forallb_forall in Hfamily.
  apply elem_of_map_to_list, list_elem_of_In, Hfamily in Hcanned.
  change (in_tuple lang heuristic_codes = true) in Hcanned. congruence.
Qed.

End MoreTables.

(** ** Sessions, once more *)

Section MoreSessions.
Context `{PyRuntime} {E : Type}.
Variable env : Env (E := E).

#[local] Abbreviation World := (World (E:=E)).

Lemma init_cases (name : pystr) (out : list pystr) (e : E) :
  self (__init__ env name out e) = fresh_bot name false None \/
  exists run, is_Some (transformers env) /\
              self (__init__ env name out e) = fresh_bot name true (Some run).
Proof.
  unfold __init__. destruct (transformers env) as [load|]; [|by left].
  destruct (load name e) as [[err|run] e']; [by left|]. right. eauto.
Qed.

Lemma session_cases (name : pystr) (out : list pystr) (e : E) (history : list pyval) :
  self (session env name out e history) = fresh_bot name false None \/
  exists run, is_Some (transformers env) /\
              self (session env name out e history) = fresh_bot name true (Some run).
Proof. rewrite session_self. apply init_cases. Qed.

Lemma session_rules (name : pystr) (out : list pystr) (e : E) (history : list pyval) :
  transformers env = None ->
  self (session env name out e history) = fresh_bot name false None.
Proof.
  intros Hnone. destruct (session_cases name out e history) as [?|(run & Hsome & _)];
    [done|]. rewrite Hnone in Hsome. by destruct Hsome.
Qed.

(** X12. In every world of a session the chatbot has a classifier exactly
    when [model_loaded] is set, which needs the [transformers] package; its
    name is the one the constructor was given. *)
Theorem session_model_invariant
    (name : pystr) (out : list pystr) (e : E) (history : list pyval) :
  let this := self (session env name out e history) in
  (model_loaded this = true <-> is_Some (classifier this)) /\
  (model_loaded this = true -> is_Some (transformers env)) /\
  model_name this = name.
Proof.
  intros this. subst this.
  destruct (session_cases name out e history) as [->|(run & Hsome & ->)]; simpl.
  - split_and!; [|done..]. split; [done|]. by intros [? [=]].
  - split_and!; [|done..]. split; [eauto|done].
Qed.

(** What [chat] returns with the heuristic detector and the rule-based
    classifier: the world is as before. *)
Lemma chat_offline (msg : pystr) (w : World) :
  langdetect env = None -> model_loaded (self w) = false ->
  RESPONSES (self w) = RESPONSES_table ->
  exists family canned,
    RESPONSES_table !! _rule_based_intent (self w) msg = Some family /\
    family !! _ld_detect (PStr msg) = Some canned /\
    chat env (PStr msg) w
    = (inr (ChatResult (_ld_detect (PStr msg)) (_rule_based_intent (self w) msg) canned), w).
Proof.
  intros Hheuristic Hrules Hresp.
  destruct (table_complete (_rule_based_intent (self w) msg) (_ld_detect (PStr msg)))
    as (family & canned & Hfamily & Hcanned);
    [apply rule_based_intents | apply ld_detect_codes |].
  exists family, canned. split_and!; [done..|].
  rewrite chat_run, detect_run. unfold detect, try_except. rewrite Hheuristic.
  cbv beta iota delta [mret M_ret].
  rewrite classify_block_rules by done.
  by apply (respond_block_canned env _ _ _ family canned).
Qed.

(** X7. With the heuristic detector and without [transformers], a call of
    [chat] on a string changes nothing at all (it prints nothing and calls no
    package, the translation service included), and its result is the same
    in every world of every session: earlier requests do not matter. *)
Theorem chat_is_stateless
    (name : pystr) (out : list pystr) (e : E) (history : list pyval)
    (name' : pystr) (out' : list pystr) (e' : E) (history' : list pyval) (msg : pystr) :
  langdetect env = None -> transformers env = None ->
  let w := session env name out e history in
  (chat env (PStr msg) w).2 = w /\
  (chat env (PStr msg) (session env name' out' e' history')).1
  = (chat env (PStr msg) w).1.
Proof.
  intros Hheuristic Hrules w.
  pose proof (session_rules name out e history Hrules) as Hw. fold w in Hw.
  pose proof (session_rules name' out' e' history' Hrules) as Hw'.
  destruct (chat_offline msg w Hheuristic) as (family & canned & Hf & Hc & ->);
    [by rewrite Hw..|].
  destruct (chat_offline msg (session env name' out' e' history') Hheuristic)
    as (family' & canned' & Hf' & Hc' & ->); [by rewrite Hw'..|].
  split; [done|]. rewrite Hw, Hw' in *.
  change (_rule_based_intent (fresh_bot (E:=E) name' false None) msg)
    with (_rule_based_intent (fresh_bot (E:=E) name false None) msg) in *.
  simpl. congruence.
Qed.

(** A blank text mentions no keyword that has a character other than white
    space. *)
Lemma blank_mentions (keywords : list pystr) (txt : pystr) :
  forallb isspace txt = true ->
  forallb (fun keyword => existsb (fun c => negb (isspace c)) keyword) keywords = true ->
  existsb (fun keyword => contains keyword txt) keywords = false.
Proof.
  intros Hblank Hkeywords. apply not_true_is_false. intros Hsome.
  apply existsb_exists in Hsome as (keyword & Hin & Hcontains).
  rewrite forallb_forall in Hkeywords. apply Hkeywords in Hin.
  apply existsb_exists in Hin as (c & Hc & Hletter).
  apply (contains_occurs keyword txt c) in Hcontains; [|by apply list_elem_of_In].
  apply occurs_elem, list_elem_of_In in Hcontains.
  rewrite forallb_forall in Hblank. apply Hblank in Hcontains.
  by rewrite Hcontains in Hletter.
Qed.

Lemma blank_lower (s : pystr) :
  is_latin1 s = true -> forallb isspace s = true -> forallb isspace (lower s) = true.
Proof.
  intros Hlatin Hblank. rewrite lower_latin1_text by done.
  rewrite forallb_forall in *. intros c Hc.
  apply list_elem_of_In, list_elem_of_fmap in Hc as (d & -> & Hd).
  rewrite isspace_latin1_lower. by apply Hblank, list_elem_of_In.
Qed.

(** X2. A message of Latin-1 white space only (the empty message among
    them) is answered, with the heuristic detector and the rule-based
    classifier, by the English apology, and nothing else happens. *)
Theorem chat_blank_message
    (name : pystr) (out : list pystr) (e : E) (history : list pyval) (s : pystr) :
  langdetect env = None -> transformers env = None ->
  is_latin1 s = true -> forallb isspace s = true ->
  let w := session env name out e history in
  chat env (PStr s) w
  = (inr (ChatResult (lit "en") (lit "fallback") (lit "Sorry, I didn't understand that.")),
     w).
Proof.
  intros Hheuristic Hrules Hlatin Hblank w.
  pose proof (session_rules name out e history Hrules) as Hw. fold w in Hw.
  destruct (chat_offline s w Hheuristic) as (family & canned & Hf & Hc & ->);
    [by rewrite Hw..|].
  rewrite ld_detect_blank in * by done.
  assert (_rule_based_intent (self w) s = lit "fallback") as Hintent.
  { rewrite Hw. unfold _rule_based_intent. rewrite !for_return_default.
    rewrite !blank_mentions; first [done | by apply blank_lower | by vm_compute]. }
  rewrite Hintent in *.
  assert (canned = lit "Sorry, I didn't understand that.") as ->; [|done].
  assert (RESPONSES_table !! lit "fallback" ≫= (.!! lit "en")
          = Some (lit "Sorry, I didn't understand that.")) as Hen
    by (vm_compute; reflexivity).
  rewrite Hf in Hen. simpl in Hen. congruence.
Qed.

End MoreSessions.

(** ** The stages of [chat] in a session *)

Section Stages.
Context `{PyRuntime} {E : Type}.
Variable env : Env (E := E).

#[local] Abbreviation World := (World (E:=E)).
#[local] Abbreviation MultilingualChatbot := (MultilingualChatbot (E:=E)).

Lemma result_response (lang intent reply : pystr) :
  ChatResult lang intent reply !! lit "response" = Some (PStr reply).
Proof.
  assert (lit "detected_language" <> lit "response") by (by vm_compute).
  assert (lit "intent" <> lit "response") by (by vm_compute).
  unfold ChatResult. by rewrite !lookup_insert_ne, lookup_singleton_eq.
Qed.

Lemma result_reply (lang intent reply reply' : pystr) (w w' : World) :
  (inr (ChatResult lang intent reply), w)
  = (inr (ChatResult lang intent reply') : exn + gmap pystr pyval, w') ->
  reply = reply'.
Proof.
  intros Heq.
  assert (ChatResult lang intent reply = ChatResult lang intent reply') as Hresult
    by congruence.
  apply (f_equal (.!! lit "response")) in Hresult.
  rewrite !result_response in Hresult. congruence.
Qed.

Lemma detect_outcome (text : pyval) (w : World) :
  exists lang w1,
    detect env text w = (inr lang, w1) /\ self w1 = self w /\ stdout w1 = stdout w.
Proof.
  unfold detect, try_except, call. destruct (langdetect env) as [ld|].
  - destruct (ld text (ext w)) as [[err|code] e']; by eexists _, _.
  - by eexists _, _.
Qed.

(** [translate_text] never raises; it keeps the chatbot and adds at most one
    line to the output. *)
Lemma translate_text_outcome (text : pystr) (dest_lang : option pystr) (w : World) :
  exists reply w' more,
    translate_text env text dest_lang w = (inr reply, w') /\
    self w' = self w /\ stdout w' = stdout w ++ more /\ length more <= 1.
Proof.
  rewrite translate_text_run. cbv zeta.
  destruct (startswith (lit "en") _);
    [eexists _, _, []; rewrite app_nil_r; simpl; split_and!; (done || lia)|].
  destruct (deep_translator env) as [translate|];
    [|eexists _, _, []; rewrite app_nil_r; simpl; split_and!; (done || lia)].
  destruct (translate _ text (ext w)) as [[err|translated] e'].
  - eexists _, _, [_]. simpl. split_and!; (done || lia).
  - eexists _, _, []. rewrite app_nil_r. simpl. split_and!; (done || lia).
Qed.

(** The reply block over the constructor's table: it returns, keeps the
    chatbot and adds at most one line to the output; without a translation
    service it changes nothing and the reply is a canned text. *)
Lemma respond_block_outcome (this : MultilingualChatbot) (intent lang : pystr)
    (w : World) :
  RESPONSES this = RESPONSES_table -> RESPONSES (self w) = RESPONSES_table ->
  intent ∈ Intent ->
  exists reply w' more,
    respond_block env this intent lang w = (inr (ChatResult lang intent reply), w') /\
    self w' = self w /\ stdout w' = stdout w ++ more /\ length more <= 1 /\
    (deep_translator env = None -> w' = w /\ reply ∈ canned_texts).
Proof.
  intros Hthis Hw Hintent.
  destruct (table_english intent Hintent) as (family & english & Hfamily & Henglish).
  destruct (family !! lang) as [canned|] eqn:Hcanned.
  - exists canned, w, []. rewrite (respond_block_canned env _ _ _ family canned) by done.
    split_and!; [done..|by rewrite app_nil_r|simpl; lia|]. intros _. split; [done|].
    by apply (table_canned intent lang family).
  - rewrite (respond_block_translated env _ _ _ family) by done.
    rewrite Henglish. simpl default.
    destruct (translate_text_outcome english (Some lang) w)
      as (reply & w' & more & Hrun & Hself & Hout & Hmore).
    exists reply, w', more. rewrite Hrun. split_and!; [done..|].
    intros Hnone. rewrite translate_text_builtin in Hrun; [|done|].
    + injection Hrun as <- <-. split; [done|]. rewrite Hw.
      apply builtin_canned. by apply (table_canned intent (lit "en") family).
    + rewrite Hw. apply table_nonempty.
Qed.

(** The classifier block of a session's chatbot returns an intent, keeps the
    chatbot and adds at most one line to the output. *)
Lemma classify_block_outcome (name : pystr) (loaded : bool) (c : option Pipeline)
    (msg : pystr) (w : World) :
  let this := fresh_bot name loaded c in
  exists intent w' more,
    classify_block this msg w = (inr intent, w') /\
    intent ∈ Intent /\ self w' = self w /\ stdout w' = stdout w ++ more /\
    length more <= 1.
Proof.
  intros this. destruct loaded, c as [run|];
    try (exists (_rule_based_intent this msg), w, []; rewrite app_nil_r;
         split_and!; [done|apply rule_based_intents|done..|simpl; lia]).
  rewrite (classify_block_model this run) by done. cbv zeta.
  destruct (run msg (ext w)).1 as [err|out_value].
  - eexists _, _, [_]. split_and!; [done|apply rule_based_intents|done..|simpl; lia].
  - destruct (getitem0 out_value) as [err|pred].
    + eexists _, _, [_].
      split_and!; [done|apply rule_based_intents|done..|simpl; lia].
    + eexists _, _, []. rewrite app_nil_r.
      split_and!; [done|by apply parse_label_intents|done..|simpl; lia].
Qed.

(** [chat] on a string in a session, stage by stage. *)
Lemma chat_stages (name : pystr) (out : list pystr) (e : E) (history : list pyval)
    (msg : pystr) :
  let w := session env name out e history in
  exists lang w1 intent w2 more2 reply w3 more3,
    detect env (PStr msg) w = (inr lang, w1) /\
    self w1 = self w /\ stdout w1 = stdout w /\
    classify_block (self w) msg w1 = (inr intent, w2) /\
    intent ∈ Intent /\ stdout w2 = stdout w1 ++ more2 /\ length more2 <= 1 /\
    respond_block env (self w) intent lang w2 = (inr (ChatResult lang intent reply), w3) /\
    stdout w3 = stdout w2 ++ more3 /\ length more3 <= 1 /\
    (deep_translator env = None -> reply ∈ canned_texts) /\
    chat env (PStr msg) w = (inr (ChatResult lang intent reply), w3).
Proof.
  intros w.
  destruct (session_bot env name out e history) as (loaded & c & Hbot). fold w in Hbot.
  destruct (detect_outcome (PStr msg) w) as (lang & w1 & Hdetect & Hself1 & Hout1).
  destruct (classify_block_outcome name loaded c msg w1)
    as (intent & w2 & more2 & Hclassify & Hintent & Hself2 & Hout2 & Hmore2).
  rewrite <- Hbot in Hclassify.
  destruct (respond_block_outcome (self w) intent lang w2)
    as (reply & w3 & more3 & Hrespond & Hself3 & Hout3 & Hmore3 & Hcanned);
    [by rewrite Hbot|by rewrite Hself2, Hself1, Hbot|done|].
  exists lang, w1, intent, w2, more2, reply, w3, more3.
  split_and!; try done; [by intros; apply Hcanned|].
  by rewrite chat_run, detect_run, Hdetect, Hself1, Hclassify.
Qed.

End Stages.

(** ** The model, the translation service and the reply *)

Section Services.
Context `{PyRuntime} {E : Type}.
Variable env : Env (E := E).

#[local] Abbreviation World := (World (E:=E)).

Lemma session_loaded (name : pystr) (out : list pystr) (e : E) (history : list pyval)
    (run : Pipeline) :
  classifier (self (session env name out e history)) = Some run ->
  model_loaded (self (session env name out e history)) = true.
Proof.
  destruct (session_cases env name out e history) as [->|(run' & _ & ->)]; done.
Qed.

(** X8. When the loaded model raises on a message, [chat] still returns: the
    intent is the one of the rule-based classifier, and the warning with the
    text of the exception is on the output. *)
Theorem chat_classifier_failure
    (name : pystr) (out : list pystr) (e : E) (history : list pyval)
    (run : Pipeline) (msg : pystr) (err : exn) :
  classifier (self (session env name out e history)) = Some run ->
  (forall e', (run msg e').1 = inl err) ->
  let w := session env name out e history in
  exists lang reply,
    (chat env (PStr msg) w).1
    = inr (ChatResult lang (_rule_based_intent (self w) msg) reply) /\
    lit "Warning: transformer classifier failed at runtime: " ++ exn_str err
    ∈ stdout (chat env (PStr msg) w).2.
Proof.
  intros Hrun Hfails w.
  destruct (chat_stages env name out e history msg)
    as (lang & w1 & intent & w2 & more2 & reply & w3 & more3 &
        _ & _ & _ & Hclassify & _ & _ & _ & _ & Hout3 & _ & _ & Hchat).
  fold w in Hclassify, Hchat.
  rewrite (classify_block_model (self w) run) in Hclassify
    by (done || by apply (session_loaded name out e history run)).
  cbv zeta in Hclassify. rewrite Hfails in Hclassify.
  injection Hclassify as <- <-.
  exists lang, reply. rewrite Hchat. split; [done|]. simpl.
  rewrite Hout3. simpl. rewrite !elem_of_app, list_elem_of_singleton. auto.
Qed.


(** X10. Without a translation service, the response of [chat] is one of the
    nine canned texts of the table, whatever language code the detection
    library answers and whatever the model answers. *)
Theorem chat_reply_is_canned
    (name : pystr) (out : list pystr) (e : E) (history : list pyval) (msg : pystr) :
  deep_translator env = None ->
  exists lang intent reply,
    (chat env (PStr msg) (session env name out e history)).1
    = inr (ChatResult lang intent reply) /\
    reply ∈ canned_texts.
Proof.
  intros Hnone.
  destruct (chat_stages env name out e history msg)
    as (lang & w1 & intent & w2 & more2 & reply & w3 & more3 &
        _ & _ & _ & _ & _ & _ & _ & _ & _ & _ & Hcanned & Hchat).
  exists lang, intent, reply. rewrite Hchat. auto.
Qed.

(** X11. [translate_text] never raises and keeps the chatbot.  For a target
    that is English, in any case of letters, it returns the text as it is
    and does nothing else: the translation service is not called.  For a
    target that is [None] or empty and no service, the text comes back as it
    is too. *)
Theorem translate_text_never_raises
    (text : pystr) (dest_lang : option pystr) (w : World) :
  (exists reply,
     (translate_text env text dest_lang w).1 = inr reply /\
     self (translate_text env text dest_lang w).2 = self w) /\
  (startswith (lit "en") (lower (default (lit "") dest_lang)) = true ->
   translate_text env text dest_lang w = (inr text, w)) /\
  (deep_translator env = None -> default (lit "") dest_lang = [] ->
   translate_text env text dest_lang w = (inr text, w)).
Proof.
  split_and!.
  - destruct (translate_text_outcome env text dest_lang w)
      as (reply & w' & more & -> & Hself & _). by exists reply.
  - intros Hen. rewrite translate_text_run. cbv zeta. by rewrite Hen.
  - intros Hnone Hempty. rewrite translate_text_run. cbv zeta.
    rewrite Hnone, Hempty, lower_empty. reflexivity.
Qed.

(** X13. When the translation service raises, [translate_text] prints one
    warning with the text of the exception and answers as it would without
    the service, by the built-in rule.  The service was asked with the
    lower-cased code. *)
Theorem translate_text_service_failure
    (name : pystr) (out : list pystr) (e : E) (history : list pyval)
    (translate : pystr -> pystr -> oracle pystr) (text dest_lang : pystr) (err : exn) :
  deep_translator env = Some translate ->
  startswith (lit "en") (lower dest_lang) = false ->
  let w := session env name out e history in
  (translate (lower dest_lang) text (ext w)).1 = inl err ->
  (translate_text env text (Some dest_lang) w).1
  = inr (builtin_translation_reference (RESPONSES (self w)) text dest_lang) /\
  self (translate_text env text (Some dest_lang) w).2 = self w /\
  stdout (translate_text env text (Some dest_lang) w).2
  = stdout w ++ [lit "Warning: translator failed: " ++ exn_str err
                 ++ lit ". Falling back to built-in translations."].
Proof.
  intros Hservice Hnot_english w Hraises.
  rewrite translate_text_run. cbv zeta. simpl default.
  rewrite Hnot_english, Hservice.
  destruct (translate (lower dest_lang) text (ext w)) as [[err'|translated] e'];
    simpl in Hraises; [injection Hraises as ->|done].
  split_and!; [|done..]. simpl. f_equal.
  destruct (session_tables env name out e history) as (Hresp & _). fold w in Hresp.
  unfold builtin_translation_reference. rewrite Hnot_english, Hresp.
  destruct table_apologies as [-> ->]. rewrite table_fallback. simpl default.
  assert (forall lang canned,
    ({[ lit "en" := lit "Sorry, I didn't understand that.";
        lit "es" := lit "Lo siento, no entendí eso.";
        lit "fr" := lit "Désolé, je n'ai pas compris cela." ]} : gmap pystr pystr)
      !! lang = Some canned ->
    canned <> [] ->
    py_or (({[ lit "en" := lit "Sorry, I didn't understand that.";
               lit "es" := lit "Lo siento, no entendí eso.";
               lit "fr" := lit "Désolé, je n'ai pas compris cela." ]}
              : gmap pystr pystr) !! lang) text = canned) as Hor.
  { intros lang canned -> Hne. by destruct canned. }
  rewrite (Hor (lit "es") (lit "Lo siento, no entendí eso."))
    by (by vm_compute).
  rewrite (Hor (lit "fr") (lit "Désolé, je n'ai pas compris cela."))
    by (by vm_compute).
  done.
Qed.

Lemma detect_library (ld : pyval -> oracle pystr) (text : pyval) (w : World) :
  langdetect env = Some ld ->
  (detect env text w).1
  = inr match (ld text (ext w)).1 with
        | inl _ => lit "en"
        | inr code => code
        end.
Proof.
  intros Hld. unfold detect, try_except, call. rewrite Hld.
  by destruct (ld text (ext w)) as [[err|code] e'].
Qed.

(** X1. With the detection library installed, the detected language of
    [chat] is the code the library answers for the message, whatever it is,
    and [en] when the library raises; in that case the response is the
    English text of the intent. *)
Theorem chat_detection_library
    (name : pystr) (out : list pystr) (e : E) (history : list pyval)
    (ld : pyval -> oracle pystr) (msg : pystr) :
  langdetect env = Some ld ->
  let w := session env name out e history in
  exists intent reply,
    (chat env (PStr msg) w).1
    = inr (ChatResult
             match (ld (PStr msg) (ext w)).1 with
             | inl _ => lit "en"
             | inr code => code
             end intent reply) /\
    (forall err, (ld (PStr msg) (ext w)).1 = inl err ->
       RESPONSES_table !! intent ≫= (.!! lit "en") = Some reply).
Proof.
  intros Hld w.
  destruct (chat_stages env name out e history msg)
    as (lang & w1 & intent & w2 & more2 & reply & w3 & more3 &
        Hdetect & _ & _ & _ & Hintent & _ & _ & Hrespond & _ & _ & _ & Hchat).
  fold w in Hdetect, Hrespond, Hchat.
  pose proof (detect_library ld (PStr msg) w Hld) as Hlang.
  rewrite Hdetect in Hlang. simpl in Hlang. injection Hlang as ->.
  exists intent, reply. rewrite Hchat. split; [done|].
  intros err Herr. rewrite Herr in Hrespond.
  destruct (table_english intent Hintent) as (family & english & Hfamily & Henglish).
  destruct (session_tables env name out e history) as (Hresp & _). fold w in Hresp.
  rewrite (respond_block_canned env _ _ _ family english) in Hrespond by done.
  rewrite Hfamily. simpl. rewrite Henglish.
  f_equal. by apply result_reply in Hrespond.
Qed.

(** X16. Without a translation service, when the detection library answers
    a code that the table does not have (a code other than [en], [es] and
    [fr]), the response is the built-in rule applied to the English text of
    the intent: the Spanish or the French apology for a code that begins
    with [es] or [fr], whatever the intent, and the English text of the
    intent for every other code. *)
Theorem chat_unknown_code
    (name : pystr) (out : list pystr) (e : E) (history : list pyval)
    (ld : pyval -> oracle pystr) (msg code : pystr) :
  deep_translator env = None -> langdetect env = Some ld ->
  in_tuple code heuristic_codes = false ->
  let w := session env name out e history in
  (ld (PStr msg) (ext w)).1 = inr code ->
  exists intent english,
    RESPONSES_table !! intent ≫= (.!! lit "en") = Some english /\
    (chat env (PStr msg) w).1
    = inr (ChatResult code intent
             (builtin_translation_reference RESPONSES_table english code)).
Proof.
  intros Hnone Hld Hunknown w Hcode.
  destruct (chat_stages env name out e history msg)
    as (lang & w1 & intent & w2 & more2 & reply & w3 & more3 &
        Hdetect & Hself1 & _ & Hclassify & Hintent & _ & _ & Hrespond & _ & _ & _ & Hchat).
  fold w in Hdetect, Hself1, Hclassify, Hrespond, Hchat.
  pose proof (detect_library ld (PStr msg) w Hld) as Hlang.
  rewrite Hdetect, Hcode in Hlang. simpl in Hlang. injection Hlang as ->.
  destruct (table_english intent Hintent) as (family & english & Hfamily & Henglish).
  destruct (session_tables env name out e history) as (Hresp & _). fold w in Hresp.
  exists intent, english. split; [by rewrite Hfamily; simpl|].
  rewrite Hchat. simpl. do 2 f_equal.
  rewrite (respond_block_translated env _ _ _ family) in Hrespond;
    [|done..|by apply (table_miss intent)].
  rewrite Henglish in Hrespond. simpl default in Hrespond.
  assert (self w2 = self w) as Hself2.
  { destruct (session_bot env name out e history) as (loaded & c & Hbot).
    fold w in Hbot. rewrite Hbot in Hclassify.
    destruct (classify_block_outcome name loaded c msg w1)
      as (intent' & w2' & more & Hc & _ & Hs & _).
    rewrite Hclassify in Hc. injection Hc as _ <-. by rewrite Hs. }
  rewrite translate_text_builtin in Hrespond;
    [|done|rewrite Hself2, Hresp; apply table_nonempty].
  rewrite Hself2, Hresp in Hrespond. by apply result_reply in Hrespond.
Qed.

(** X17. A call of [chat] on a string only adds to the output, and at most
    two lines: the warning of the classifier and the warning of the
    translation service. *)
Theorem chat_prints_at_most_two_lines
    (name : pystr) (out : list pystr) (e : E) (history : list pyval) (msg : pystr) :
  let w := session env name out e history in
  exists more,
    stdout (chat env (PStr msg) w).2 = stdout w ++ more /\ length more <= 2.
Proof.
  intros w.
  destruct (chat_stages env name out e history msg)
    as (lang & w1 & intent & w2 & more2 & reply & w3 & more3 &
        _ & _ & Hout1 & _ & _ & Hout2 & Hmore2 & _ & Hout3 & Hmore3 & _ & Hchat).
  fold w in Hout1, Hchat. exists (more2 ++ more3). rewrite Hchat. simpl.
  rewrite Hout3, Hout2, Hout1, length_app, <- app_assoc. split; [done|lia].
Qed.

End Services.

(** ** Labels with a number *)

Section NumberedLabels.
Context `{PyRuntime} {E : Type}.
Variable env : Env (E := E).

Lemma isdecimal_ascii (c : codepoint) :
  isdecimal (H := latin1_runtime) c = (48 <=? c)%N && (c <=? 57)%N.
Proof.
  unfold isdecimal. change (decimal c) with (latin1_decimal c).
  unfold latin1_decimal. by destruct ((48 <=? c)%N && (c <=? 57)%N).
Qed.





(** The search skips a prefix without digits. *)
Lemma re_search_digits_skip (prefix rest : pystr) :
  digit_free prefix = true ->
  re_search_digits (H := latin1_runtime) (prefix ++ rest)
  = re_search_digits (H := latin1_runtime) rest.
Proof.
  unfold digit_free. induction prefix as [|c prefix IH]; simpl; [done|].
  intros [Hc Hprefix]%andb_prop. rewrite isdecimal_ascii.
  destruct ((48 <=? c)%N && (c <=? 57)%N); [done|]. by apply IH.
Qed.







(** X15. A label of Latin-1 text without a digit is parsed by its words
    alone: [greeting] if, lower-cased, it contains [greet], [hello] or [hi],
    and [fallback] otherwise.  It is never parsed to [order_status], not
    even the label [order_status] itself. *)
Theorem parse_label_words (this : MultilingualChatbot (E := E)) (s : pystr) :
  is_latin1 s = true -> digit_free s = true ->
  _parse_label_to_intent this (PStr s)
  = (if contains (lit "greet") (latin1_lower <$> s)
        || contains (lit "hello") (latin1_lower <$> s)
        || contains (lit "hi") (latin1_lower <$> s)
     then lit "greeting" else lit "fallback") /\
  _parse_label_to_intent this (PStr s) <> lit "order_status".
Proof.
  intros Hlatin Hfree.
  assert (_parse_label_to_intent this (PStr s)
          = if contains (lit "greet") (latin1_lower <$> s)
               || contains (lit "hello") (latin1_lower <$> s)
               || contains (lit "hi") (latin1_lower <$> s)
            then lit "greeting" else lit "fallback") as ->.
  { rewrite parse_label_latin1 by done. unfold _parse_label_to_intent, str.
    rewrite <- (app_nil_r s) at 1. rewrite re_search_digits_skip by done.
    reflexivity. }
  split; [done|]. by case_match.
Qed.

End NumberedLabels.

(** ** The script *)

Section ScriptFacts.
Context `{PyRuntime} {E : Type}.
Variable env : Env (E := E).

#[local] Abbreviation World := (World (E:=E)).






End ScriptFacts.

(** ** The premises at work *)

Section MoreRuns.
#[local] Existing Instance latin1_runtime.

#[local] Abbreviation demo := (session bare_env default_model_name [] () earlier_requests).
#[local] Abbreviation failing :=
  (session failing_env default_model_name [] () earlier_requests).
#[local] Abbreviation german :=
  (session german_env default_model_name [] () earlier_requests).

Lemma chat_blank_message_witness :
  langdetect bare_env = None /\ transformers bare_env = None /\
  is_latin1 [32; 9; 160]%N = true /\ forallb isspace [32; 9; 160]%N = true /\
  chat bare_env (PStr [32; 9; 160]%N) demo
  = (inr (ChatResult (lit "en") (lit "fallback") (lit "Sorry, I didn't understand that.")),
     demo).
Proof.
  split_and!; [reflexivity..|].
  apply (chat_blank_message bare_env); reflexivity.
Defined.

Lemma ld_detect_inverted_marks_witness :
  is_latin1 (lit "¡Bonjour! Merci") = true /\
  contains (lit "¿") (lit "¡Bonjour! Merci") || contains (lit "¡") (lit "¡Bonjour! Merci")
  = true /\
  _ld_detect (PStr (lit "¡Bonjour! Merci")) = lit "es".
Proof.
  split; [vm_compute; reflexivity|]. split; [vm_compute; reflexivity|].
  apply ld_detect_inverted_marks; vm_compute; reflexivity.
Defined.

Lemma case_does_not_matter_witness :
  is_latin1 (lit "OÙ EST MA COMMANDE") = true /\
  is_latin1 (lit "où est ma commande") = true /\
  latin1_lower <$> lit "OÙ EST MA COMMANDE" = latin1_lower <$> lit "où est ma commande" /\
  _ld_detect (PStr (lit "OÙ EST MA COMMANDE")) = _ld_detect (PStr (lit "où est ma commande")) /\
  _rule_based_intent (self demo) (lit "OÙ EST MA COMMANDE")
  = _rule_based_intent (self demo) (lit "où est ma commande").
Proof.
  split; [vm_compute; reflexivity|]. split; [vm_compute; reflexivity|].
  split; [vm_compute; reflexivity|].
  apply case_does_not_matter; vm_compute; reflexivity.
Defined.


Lemma parse_label_words_witness :
  is_latin1 (lit "order_status") = true /\ digit_free (lit "order_status") = true /\
  _parse_label_to_intent (self demo) (PStr (lit "order_status"))
  = (if contains (lit "greet") (latin1_lower <$> lit "order_status")
        || contains (lit "hello") (latin1_lower <$> lit "order_status")
        || contains (lit "hi") (latin1_lower <$> lit "order_status")
     then lit "greeting" else lit "fallback") /\
  _parse_label_to_intent (self demo) (PStr (lit "order_status")) <> lit "order_status".
Proof.
  split; [vm_compute; reflexivity|]. split; [vm_compute; reflexivity|].
  apply parse_label_words; vm_compute; reflexivity.
Defined.

Lemma chat_is_stateless_witness :
  langdetect bare_env = None /\ transformers bare_env = None /\
  (chat bare_env (PStr (lit "Merci beaucoup")) demo).2 = demo /\
  (chat bare_env (PStr (lit "Merci beaucoup")) (session bare_env (lit "xlm-roberta-base") [] () [])).1
  = (chat bare_env (PStr (lit "Merci beaucoup")) demo).1.
Proof.
  split; [reflexivity|]. split; [reflexivity|].
  apply (chat_is_stateless bare_env); reflexivity.
Defined.

Lemma chat_classifier_failure_witness :
  classifier (self failing) = Some raising_pipeline /\
  (forall e', (raising_pipeline (lit "Where is my order?") e').1
              = inl (ExternalError (lit "CUDA out of memory"))) /\
  exists lang reply,
    (chat failing_env (PStr (lit "Where is my order?")) failing).1
    = inr (ChatResult lang
             (_rule_based_intent (self failing) (lit "Where is my order?")) reply) /\
    lit "Warning: transformer classifier failed at runtime: "
    ++ exn_str (ExternalError (lit "CUDA out of memory"))
    ∈ stdout (chat failing_env (PStr (lit "Where is my order?")) failing).2.
Proof.
  assert (classifier (self failing) = Some raising_pipeline) as Hrun
    by (vm_compute; reflexivity).
  split; [exact Hrun|]. split; [reflexivity|].
  apply (chat_classifier_failure failing_env _ _ _ _ raising_pipeline _ _ Hrun).
  reflexivity.
Defined.


Lemma chat_reply_is_canned_witness :
  deep_translator german_env = None /\
  exists lang intent reply,
    (chat german_env (PStr (lit "Guten Tag"))
       german).1
    = inr (ChatResult lang intent reply) /\
    reply ∈ canned_texts.
Proof.
  split; [reflexivity|].
  apply (chat_reply_is_canned german_env). reflexivity.
Defined.

Lemma translate_text_service_failure_witness :
  deep_translator failing_env = Some raising_translator /\
  startswith (lit "en") (lower (lit "es-MX")) = false /\
  (raising_translator (lower (lit "es-MX")) (lit "Hello! How can I assist you today?")
     (ext failing)).1
  = inl (ExternalError (lit "Request exception")) /\
  (translate_text failing_env (lit "Hello! How can I assist you today?")
     (Some (lit "es-MX")) failing).1
  = inr (builtin_translation_reference (RESPONSES (self failing))
           (lit "Hello! How can I assist you today?") (lit "es-MX")) /\
  self (translate_text failing_env (lit "Hello! How can I assist you today?")
          (Some (lit "es-MX")) failing).2 = self failing /\
  stdout (translate_text failing_env (lit "Hello! How can I assist you today?")
            (Some (lit "es-MX")) failing).2
  = stdout failing ++ [lit "Warning: translator failed: "
                       ++ exn_str (ExternalError (lit "Request exception"))
                       ++ lit ". Falling back to built-in translations."].
Proof.
  split; [reflexivity|]. split; [vm_compute; reflexivity|]. split; [reflexivity|].
  apply (translate_text_service_failure failing_env _ _ _ _ raising_translator);
    [reflexivity | vm_compute; reflexivity | reflexivity].
Defined.

Lemma chat_detection_library_witness :
  langdetect failing_env = Some raising_detector /\
  exists intent reply,
    (chat failing_env (PStr (lit "12345")) failing).1
    = inr (ChatResult
             match (raising_detector (PStr (lit "12345")) (ext failing)).1 with
             | inl _ => lit "en"
             | inr code => code
             end intent reply) /\
    (forall err,
       (raising_detector (PStr (lit "12345")) (ext failing)).1 = inl err ->
       RESPONSES_table !! intent ≫= (.!! lit "en") = Some reply).
Proof.
  split; [reflexivity|].
  apply (chat_detection_library failing_env _ _ _ _ raising_detector). reflexivity.
Defined.

Lemma chat_unknown_code_witness :
  deep_translator german_env = None /\
  langdetect german_env = Some german_detector /\
  in_tuple (lit "de") heuristic_codes = false /\
  (german_detector (PStr (lit "Guten Tag")) (ext german)).1 = inr (lit "de") /\
  exists intent english,
    RESPONSES_table !! intent ≫= (.!! lit "en") = Some english /\
    (chat german_env (PStr (lit "Guten Tag")) german).1
    = inr (ChatResult (lit "de") intent
             (builtin_translation_reference RESPONSES_table english (lit "de"))).
Proof.
  split; [reflexivity|]. split; [reflexivity|]. split; [vm_compute; reflexivity|].
  split; [reflexivity|].
  apply (chat_unknown_code german_env _ _ _ _ german_detector);
    [reflexivity | reflexivity | vm_compute; reflexivity | reflexivity].
Defined.

(** The runs above, computed. *)
Example chat_german_greeting :
  (chat german_env (PStr (lit "Guten Tag"))
     (session german_env default_model_name [] () earlier_requests)).1
  = inr (ChatResult (lit "de") (lit "greeting") (lit "Hello! How can I assist you today?")).
Proof. vm_compute. reflexivity. Qed.

Example chat_failing_packages :
  (chat failing_env (PStr (lit "¿Dónde está mi pedido?"))
     (session failing_env default_model_name [] () [])).1
  = inr (ChatResult (lit "en") (lit "order_status")
           (lit "Your order is on the way and will arrive tomorrow.")).
Proof. vm_compute. reflexivity. Qed.

Example main_bare : (main bare_env [] ()).1 = inr ().
Proof. vm_compute. reflexivity. Qed.

End MoreRuns.
